(** * generate_complete_dump.py: the production dump generator

    A shallow embedding of [src/generate_complete_dump.py] and the
    properties of its output file.

    - Text is [string] (a sequence of 8-bit characters).  The Python
      methods used by the script ([strip], [split], [join], [endswith],
      [upper]) are written out on that representation; white space is the
      set of code points below 128 that Python's [str.isspace] accepts.
    - The script talks to the database only through [subprocess.run] on a
      [psql] command line.  The database is a function from the command
      line to the outcome of the process: either the captured standard
      output, or the [CalledProcessError] raised for a non-zero exit.
      A run repeats a command line only if the catalog answer lists a
      table twice, so the outcome is left to depend on the command line
      alone; [psql] is taken to be installed.
    - Everything the script does to the outside is kept in a [World]:
      the command lines launched so far, the lines printed, and the files
      written.
    - The SQL text that the script generates is run by the database, not
      by the script; module [Sql] gives the fragment of SQL that the
      generated column expressions use, with its rendering as text. *)

From Stdlib Require Import String Ascii List Bool Arith Lia Sorted.
Import ListNotations.
Local Open Scope string_scope.
Local Open Scope list_scope.

(** ** Python string methods *)

Module Py.

(** [str.isspace] on one character, for code points below 128:
    tab, line feed, vertical tab, form feed, carriage return,
    the four separators 0x1c..0x1f, and the space. *)
Definition isspace (c : ascii) : bool :=
  let n := nat_of_ascii c in
  (Nat.leb 9 n && Nat.leb n 13) || (Nat.leb 28 n && Nat.leb n 32).

(** A text of white space only (the empty text included). *)
Fixpoint blank (s : string) : bool :=
  match s with
  | EmptyString => true
  | String c r => isspace c && blank r
  end.

(** [s.lstrip()] *)
Fixpoint lstrip (s : string) : string :=
  match s with
  | EmptyString => EmptyString
  | String c r => if isspace c then lstrip r else s
  end.

(** [s.rstrip()] *)
Fixpoint rstrip (s : string) : string :=
  match s with
  | EmptyString => EmptyString
  | String c r =>
      match rstrip r with
      | EmptyString => if isspace c then EmptyString else String c EmptyString
      | r' => String c r'
      end
  end.

(** [s.strip()] *)
Definition strip (s : string) : string := rstrip (lstrip s).

(** The truth value of a [str]: false exactly for the empty string. *)
Definition nonempty (s : string) : bool :=
  match s with EmptyString => false | String _ _ => true end.

(** The truth value of a value that is a [str] or [None]. *)
Definition truthy (r : option string) : bool :=
  match r with None => false | Some s => nonempty s end.

Definition newline : ascii := ascii_of_nat 10.
Definition nl : string := String newline EmptyString.

(** [s.split('\n')]: the pieces between line feeds; never empty. *)
Fixpoint split_lines (s : string) : list string :=
  match s with
  | EmptyString => [EmptyString]
  | String c r =>
      if Ascii.eqb c newline then EmptyString :: split_lines r
      else match split_lines r with
           | [] => [String c EmptyString]
           | l :: ls => String c l :: ls
           end
  end.

(** [sep.join(l)] *)
Fixpoint join (sep : string) (l : list string) : string :=
  match l with
  | [] => EmptyString
  | [x] => x
  | x :: rest => (x ++ sep ++ join sep rest)%string
  end.

(** [s.endswith(suffix)] *)
Definition endswith (s suffix : string) : bool :=
  let n := String.length s in
  let k := String.length suffix in
  Nat.leb k n && String.eqb (substring (n - k) k s) suffix.

(** [s.upper()] on code points below 128. *)
Definition upper_char (c : ascii) : ascii :=
  let n := nat_of_ascii c in
  if Nat.leb 97 n && Nat.leb n 122 then ascii_of_nat (n - 32) else c.

Fixpoint upper (s : string) : string :=
  match s with
  | EmptyString => EmptyString
  | String c r => String (upper_char c) (upper r)
  end.

(** [x in l] for a list of strings. *)
Definition mem (x : string) (l : list string) : bool :=
  existsb (String.eqb x) l.

(** [needle in s] for strings. *)
Fixpoint contains (s needle : string) : bool :=
  prefix needle s ||
  match s with
  | EmptyString => false
  | String _ r => contains r needle
  end.

(** The comprehension [[t.strip() for t in s.split('\n') if t.strip()]]. *)
Definition stripped_lines (s : string) : list string :=
  filter nonempty (map strip (split_lines s)).

End Py.


(** ** The outside world *)

(** What [subprocess.run(cmd, capture_output=True, text=True, check=True)]
    gives: the captured standard output of a process that exited with
    status 0, or the [CalledProcessError] raised otherwise, with the text
    [str(e)] of the exception and its captured standard error. *)
Inductive ProcessOutcome : Type :=
| Completed (stdout : string)
| CalledProcessError (description : string) (stderr : string).

Record World : Type := mkWorld {
  launched : list (list string);      (* command lines, oldest first *)
  printed : list string;              (* one entry per call of print *)
  files : string -> option string     (* content by file name *)
}.

(** Computations of the script: a value and the world after them. *)
Definition M (A : Type) : Type := World -> A * World.

Definition ret {A : Type} (a : A) : M A := fun w => (a, w).

Definition bind {A B : Type} (m : M A) (k : A -> M B) : M B :=
  fun w => let (a, w') := m w in k a w'.

Declare Scope script_scope.
Delimit Scope script_scope with script.
Notation "x <- m ;; k" := (bind m (fun x => k))
  (at level 61, m at next level, right associativity) : script_scope.
Notation "m ;; k" := (bind m (fun _ => k))
  (at level 61, right associativity) : script_scope.
Local Open Scope script_scope.

(** [print(s)] *)
Definition print (s : string) : M unit :=
  fun w => (tt, mkWorld (launched w) (printed w ++ [s]) (files w)).

(** [with open(name, 'w') as f: f.write(content)] *)
Definition write_file (name content : string) : M unit :=
  fun w => (tt, mkWorld (launched w) (printed w)
                  (fun n => if String.eqb n name then Some content else files w n)).

(** The value of a [str]-or-[None] variable on the branch where it is
    known to be true. *)
Definition text (r : option string) : string :=
  match r with Some s => s | None => EmptyString end.

(** ** The script *)

Definition rule : string :=
  "-- ============================================================================".

Definition output_file : string := "complete_production_dump.sql".

Definition excluded_table : string := "sessions".

Definition tables_query : string :=
  Py.join Py.nl
    [ EmptyString;
      "    SELECT table_name ";
      "    FROM information_schema.tables ";
      "    WHERE table_schema = 'public' ";
      "    AND table_type = 'BASE TABLE'";
      "    ORDER BY table_name;";
      "    " ].

Definition columns_query (table : string) : string :=
  Py.join Py.nl
    [ EmptyString;
      "        SELECT column_name ";
      "        FROM information_schema.columns ";
      ("        WHERE table_name = '" ++ table ++ "' ")%string;
      "        ORDER BY ordinal_position;";
      "        " ].

Definition count_query (table : string) : string :=
  ("SELECT COUNT(*) FROM " ++ table ++ ";")%string.

(** The expression chosen for one column (the body of the first loop of
    [generate_insert_statements]). *)
Definition special_column (col : string) : bool :=
  Py.endswith col "::text" || Py.mem col ["id"; "created_at"; "updated_at"].

Definition column_expr (col : string) : string :=
  if special_column col
  then ("quote_literal(" ++ col ++ ")")%string
  else ("COALESCE(quote_literal(" ++ col ++ "::text), 'NULL')")%string.

(** [for col in columns: column_list.append(...)] *)
Fixpoint build_column_list (columns column_list : list string) : list string :=
  match columns with
  | [] => column_list
  | col :: rest => build_column_list rest (column_list ++ [column_expr col])
  end.

Definition insert_query (table_name : string) (column_list : list string) : string :=
  Py.join Py.nl
    [ EmptyString;
      ("    SELECT 'INSERT INTO " ++ table_name ++ " VALUES (' ||")%string;
      ("           " ++ Py.join " || ',' || " column_list ++ " ||")%string;
      "           ');' as insert_statement";
      ("    FROM " ++ table_name ++ ";")%string;
      "    " ].

Definition header : list string :=
  [ "-- COMPLETE PRODUCTION DATABASE DUMP";
    "-- Generated: August 27, 2025";
    "-- Contains ALL production data";
    EmptyString;
    "-- Disable foreign key checks for import";
    "SET session_replication_role = replica;";
    EmptyString ].

Definition footer : list string :=
  [ rule;
    "-- Re-enable foreign key checks";
    rule;
    "SET session_replication_role = DEFAULT;";
    EmptyString;
    "-- Import complete! All production data has been restored." ].

Definition banner_line (table row_count : string) : string :=
  ("-- " ++ Py.upper table ++ " (" ++ row_count ++ " records)")%string.

(** [for stmt in lines: if stmt.strip(): dump_content.append(stmt.strip())] *)
Fixpoint append_statements (lines dump_content : list string) : list string :=
  match lines with
  | [] => dump_content
  | stmt :: rest =>
      if Py.nonempty (Py.strip stmt)
      then append_statements rest (dump_content ++ [Py.strip stmt])
      else append_statements rest dump_content
  end.

(** What the script takes from its surroundings: [os.environ] and the
    behaviour of [subprocess.run] on a command line. *)
Class System : Type := {
  environ : string -> option string;
  subprocess_run : list string -> ProcessOutcome
}.

Section Script.

Context {sys : System}.

Definition env_get (key default : string) : string :=
  match environ key with Some v => v | None => default end.

Definition psql_cmd (query : string) : list string :=
  ["psql"; env_get "DATABASE_URL" EmptyString; "-t"; "-c"; query].

Definition run_process (cmd : list string) : M ProcessOutcome :=
  fun w => (subprocess_run cmd, mkWorld (launched w ++ [cmd]) (printed w) (files w)).

Definition run_sql_query (query : string) : M (option string) :=
  result <- run_process (psql_cmd query) ;;
  match result with
  | Completed stdout => ret (Some (Py.strip stdout))
  | CalledProcessError e stderr =>
      print ("Error running query: " ++ e) ;;
      print ("stderr: " ++ stderr) ;;
      ret None
  end.

Definition generate_insert_statements (table_name : string) (columns : list string)
  : M (option string) :=
  print ("Generating INSERT statements for " ++ table_name ++ "...") ;;
  let column_list := build_column_list columns [] in
  run_sql_query (insert_query table_name column_list).

(** One iteration of the loop [for table in tables] of [main]; the
    result is [dump_content] after the iteration. *)
Definition process_table (table : string) (dump_content : list string)
  : M (list string) :=
  if String.eqb table excluded_table then ret dump_content
  else
    print ("Processing table: " ++ table) ;;
    columns_result <- run_sql_query (columns_query table) ;;
    if negb (Py.truthy columns_result) then ret dump_content
    else
      let columns := Py.stripped_lines (text columns_result) in
      count_result <- run_sql_query (count_query table) ;;
      let row_count :=
        if Py.truthy count_result then Py.strip (text count_result) else "0" in
      let dump_content := dump_content ++ [rule] in
      let dump_content := dump_content ++ [banner_line table row_count] in
      let dump_content := dump_content ++ [rule] in
      insert_statements <- generate_insert_statements table columns ;;
      let dump_content :=
        if Py.truthy insert_statements
        then append_statements (Py.split_lines (text insert_statements)) dump_content
        else dump_content in
      ret (dump_content ++ [EmptyString]).

Fixpoint process_tables (tables dump_content : list string) : M (list string) :=
  match tables with
  | [] => ret dump_content
  | table :: rest =>
      dump_content <- process_table table dump_content ;;
      process_tables rest dump_content
  end.

Definition main : M unit :=
  tables_result <- run_sql_query tables_query ;;
  if negb (Py.truthy tables_result)
  then print "Failed to get table list"
  else
    let tables := Py.stripped_lines (text tables_result) in
    dump_content <- process_tables tables header ;;
    let dump_content := dump_content ++ footer in
    write_file output_file (Py.join Py.nl dump_content) ;;
    print ("Complete production dump generated: " ++ output_file).

End Script.

(** ** What one run leaves behind, read off the database

    The same quantities as in [process_table], as functions of the
    database alone.  [process_table_spec] and [main_spec] below
    prove that the script computes them. *)

Section Expected.

Context {sys : System}.

(** The value [run_sql_query query] returns. *)
Definition query_result (query : string) : option string :=
  match subprocess_run (psql_cmd query) with
  | Completed stdout => Some (Py.strip stdout)
  | CalledProcessError _ _ => None
  end.

(** The lines [run_sql_query query] prints. *)
Definition query_report (query : string) : list string :=
  match subprocess_run (psql_cmd query) with
  | Completed _ => []
  | CalledProcessError e stderr =>
      [("Error running query: " ++ e)%string; ("stderr: " ++ stderr)%string]
  end.

Definition columns_of (table : string) : list string :=
  Py.stripped_lines (text (query_result (columns_query table))).

Definition row_count_of (table : string) : string :=
  let count_result := query_result (count_query table) in
  if Py.truthy count_result then Py.strip (text count_result) else "0".

Definition statements_query (table : string) : string :=
  insert_query table (build_column_list (columns_of table) []).

Definition statements_of (table : string) : list string :=
  let insert_statements := query_result (statements_query table) in
  if Py.truthy insert_statements
  then append_statements (Py.split_lines (text insert_statements)) []
  else [].

(** A table gets a section when it is not the excluded one and its
    columns query gives a non-empty answer. *)
Definition included (table : string) : bool :=
  negb (String.eqb table excluded_table) &&
  Py.truthy (query_result (columns_query table)).

Definition section_of (table : string) : list string :=
  [rule; banner_line table (row_count_of table); rule]
    ++ statements_of table ++ [EmptyString].

Definition table_lines (table : string) : list string :=
  if included table then section_of table else [].

(** The command lines one iteration launches. *)
Definition table_commands (table : string) : list (list string) :=
  if String.eqb table excluded_table then []
  else if negb (Py.truthy (query_result (columns_query table)))
  then [psql_cmd (columns_query table)]
  else [psql_cmd (columns_query table);
        psql_cmd (count_query table);
        psql_cmd (statements_query table)].

(** The lines one iteration prints. *)
Definition table_prints (table : string) : list string :=
  if String.eqb table excluded_table then []
  else
    [("Processing table: " ++ table)%string]
      ++ query_report (columns_query table)
      ++ (if negb (Py.truthy (query_result (columns_query table))) then []
          else query_report (count_query table)
                 ++ [("Generating INSERT statements for " ++ table ++ "...")%string]
                 ++ query_report (statements_query table)).

(** The table names of the catalog answer, as [main] reads them. *)
Definition catalog_tables : list string :=
  Py.stripped_lines (text (query_result tables_query)).

(** The catalog's tables other than the excluded one. *)
Definition kept_tables : list string :=
  filter (fun t => negb (String.eqb t excluded_table)) catalog_tables.

(** A round trip that succeeds with an output that is not blank. *)
Definition answered (query : string) : Prop :=
  exists stdout,
    subprocess_run (psql_cmd query) = Completed stdout /\ Py.blank stdout = false.

(** The content [main] writes when the catalog answer is not empty. *)
Definition dump_text : string :=
  Py.join Py.nl (header ++ flat_map table_lines catalog_tables ++ footer).

(** An outcome the callers of [run_sql_query] cannot use: a failure, or
    an output of white space only. *)
Definition unusable (r : ProcessOutcome) : Prop :=
  match r with
  | Completed stdout => Py.blank stdout = true
  | CalledProcessError _ _ => True
  end.

End Expected.

(** ** The SQL fragment of the generated column expressions *)

Module Sql.

(** A value as text; [None] is the SQL null. *)
Definition value : Type := option string.

Inductive expr : Type :=
| Column (reference : string)        (* a column reference, as written *)
| Literal (s : string)               (* the constant 's' *)
| CastText (e : expr)                (* e::text *)
| QuoteLiteral (e : expr)            (* quote_literal(e) *)
| Coalesce (e1 e2 : expr).           (* COALESCE(e1, e2) *)

(** The text of an expression, as the script writes it. *)
Fixpoint render (e : expr) : string :=
  match e with
  | Column c => c
  | Literal s => "'" ++ s ++ "'"
  | CastText e => render e ++ "::text"
  | QuoteLiteral e => "quote_literal(" ++ render e ++ ")"
  | Coalesce e1 e2 => "COALESCE(" ++ render e1 ++ ", " ++ render e2 ++ ")"
  end%string.

Section Eval.

(** The database's literal-quoting function on a text that is not null;
    the repository does not contain it. *)
Variable quote_text : string -> string.

(** Modelled from the spec: the database's evaluation of an expression on
    one row, which the repository does not contain.  The quoting step
    yields no value on a null; [COALESCE] falls back to its second
    argument when the first has no value; the cast to text keeps a null. *)
Fixpoint eval (row : string -> value) (e : expr) : value :=
  match e with
  | Column c => row c
  | Literal s => Some s
  | CastText e => eval row e
  | QuoteLiteral e =>
      match eval row e with Some s => Some (quote_text s) | None => None end
  | Coalesce e1 e2 =>
      match eval row e1 with Some s => Some s | None => eval row e2 end
  end.

End Eval.

(** The expression the script writes for a column, as the database
    reads it. *)
Definition column_ast (col : string) : expr :=
  if special_column col
  then QuoteLiteral (Column col)
  else Coalesce (QuoteLiteral (CastText (Column col))) (Literal "NULL").

(** The database's [||] on text, which the repository does not contain:
    null as soon as one operand is null. *)
Definition concat (a b : value) : value :=
  match a, b with
  | Some x, Some y => Some (x ++ y)%string
  | _, _ => None
  end.

(** A null is printed by [psql] as nothing at all. *)
Definition shown (v : value) : string :=
  match v with Some s => s | None => EmptyString end.

(** [x1; sep; x2; sep; ...; xn] *)
Fixpoint separated {A : Type} (sep : A) (l : list A) : list A :=
  match l with
  | [] => []
  | [x] => [x]
  | x :: rest => x :: sep :: separated sep rest
  end.

(** The operands of the select item that the script writes,
    ['INSERT INTO t VALUES (' || e1 || ',' || ... || ',' || en || ');'],
    from left to right. *)
Definition item_operands (table : string) (columns : list string) : list expr :=
  Literal ("INSERT INTO " ++ table ++ " VALUES (")
    :: separated (Literal ",") (map column_ast columns) ++ [Literal ");"].

(** The text of that select item, laid out as the script lays it out:
    a line break after the first [||] and after the last. *)
Definition render_item (table : string) (columns : list string) : string :=
  (render (Literal ("INSERT INTO " ++ table ++ " VALUES (")) ++ " ||" ++ Py.nl
     ++ "           "
     ++ Py.join " || " (map render (separated (Literal ",") (map column_ast columns)))
     ++ " ||" ++ Py.nl
     ++ "           " ++ render (Literal ");"))%string.

(** The value of the select item on one row: the operands' values
    concatenated by [||]. *)
Definition insert_statement (quote_text : string -> string) (table : string)
    (row : string -> value) (columns : list string) : value :=
  fold_right concat (Some EmptyString)
             (map (eval quote_text row) (item_operands table columns)).

End Sql.

(** Two databases give the same usable text to a query. *)
Definition same_text (s1 s2 : System) (q : string) : Prop :=
  text (@query_result s1 q) = text (@query_result s2 q).

Definition starts_with_newline (s : string) : bool :=
  match s with
  | String c _ => Ascii.eqb c Py.newline
  | EmptyString => false
  end.

(** The footer as the specification lists it: a rule line, the comment,
    the statement, a blank line, the completion comment. *)
Definition footer_as_listed : list string :=
  [ rule;
    "-- Re-enable foreign key checks";
    "SET session_replication_role = DEFAULT;";
    EmptyString;
    "-- Import complete! All production data has been restored." ].


(** ** Notions for the further properties *)

(** [chr(10) in s] *)
Fixpoint has_newline (s : string) : bool :=
  match s with
  | EmptyString => false
  | String c r => Ascii.eqb c Py.newline || has_newline r
  end.

(** A text that is not empty, stands on one line and has no white space
    to strip at either end. *)
Definition clean (s : string) : Prop :=
  s <> EmptyString /\ Py.lstrip s = s /\ Py.rstrip s = s /\ has_newline s = false.

(** The command line [run_sql_query] builds, for some query. *)
Definition psql_shaped {sys : System} (cmd : list string) : Prop :=
  exists query,
    cmd = ["psql"; match environ "DATABASE_URL" with Some url => url | None => EmptyString end;
           "-t"; "-c"; query].

(** The lines of the log that announce a table. *)
Definition progress_lines (lines : list string) : list string :=
  filter (prefix "Processing table: ") lines.

(** ** Concrete databases *)

Module Scenario.

Definition empty_world : World := mkWorld [] [] (fun _ => None).

(** What [psql -t] prints for a result of one column: each row on a line
    of its own after a space, then an empty line. *)
Fixpoint tuples_only (rows : list string) : string :=
  match rows with
  | [] => Py.nl
  | row :: rest => (" " ++ row ++ Py.nl ++ tuples_only rest)%string
  end.

Definition exit_status_1 : ProcessOutcome :=
  CalledProcessError "Command 'psql' returned non-zero exit status 1."
                     "ERROR:  relation does not exist".

Definition exit_status_2 : ProcessOutcome :=
  CalledProcessError "Command 'psql' returned non-zero exit status 2."
                     "psql: error: connection to server failed".

(** A database given by its answers to the queries it knows. *)
Definition answers (known : list (string * ProcessOutcome)) (cmd : list string)
  : ProcessOutcome :=
  match cmd with
  | [_; _; _; _; query] =>
      match find (fun a => String.eqb (fst a) query) known with
      | Some a => snd a
      | None => exit_status_1
      end
  | _ => exit_status_1
  end.

Definition production_url (key : string) : option string :=
  if String.eqb key "DATABASE_URL" then Some "postgresql://db/production" else None.

(** The scenario of the specification: [users] with the columns [id],
    [name], [created_at] and two rows, beside [sessions]. *)
Definition users_statements : list string :=
  [ "INSERT INTO users VALUES ('1','ann','2025-08-01 10:00:00');";
    "INSERT INTO users VALUES ('2','bob','2025-08-02 11:30:00');" ].

Definition users_answers : list (string * ProcessOutcome) :=
  [ (tables_query, Completed (tuples_only ["sessions"; "users"]));
    (columns_query "users", Completed (tuples_only ["id"; "name"; "created_at"]));
    (count_query "users", Completed (tuples_only ["2"]));
    (insert_query "users" (map column_expr ["id"; "name"; "created_at"]),
     Completed (tuples_only users_statements));
    (columns_query "sessions", Completed (tuples_only ["sid"; "sess"; "expire"]));
    (count_query "sessions", Completed (tuples_only ["1"]));
    (insert_query "sessions" (map column_expr ["sid"; "sess"; "expire"]),
     Completed (tuples_only ["INSERT INTO sessions VALUES ('k','{}','2025-09-01');"])) ].

Definition users_system : System :=
  {| environ := production_url; subprocess_run := answers users_answers |}.

(** The same database when its row-count query fails. *)
Definition users_uncounted_system : System :=
  {| environ := production_url;
     subprocess_run := fun cmd =>
       if list_eq_dec string_dec cmd (@psql_cmd users_system (count_query "users"))
       then exit_status_1
       else answers users_answers cmd |}.

(** A database with no base table in schema [public]: the catalog query
    succeeds and prints no row. *)
Definition empty_catalog_system : System :=
  {| environ := production_url;
     subprocess_run := answers [(tables_query, Completed (tuples_only []))] |}.

(** No database can be reached: [DATABASE_URL] is not set and every
    [psql] exits with status 2. *)
Definition unreachable_system : System :=
  {| environ := fun _ => None; subprocess_run := fun _ => exit_status_2 |}.

(** Two tables; [drafts] has no row, and the columns query of [notes]
    prints nothing. *)
Definition drafts_answers : list (string * ProcessOutcome) :=
  [ (tables_query, Completed (tuples_only ["drafts"; "notes"]));
    (columns_query "drafts", Completed (tuples_only ["id"; "body"]));
    (count_query "drafts", Completed (tuples_only ["0"]));
    (insert_query "drafts" (map column_expr ["id"; "body"]), Completed (tuples_only []));
    (columns_query "notes", Completed (tuples_only [])) ].

Definition drafts_system : System :=
  {| environ := production_url; subprocess_run := answers drafts_answers |}.

(** The same system, every output of white space only turned into a
    failure. *)
Definition failing_when_blank (sys : System) : System :=
  {| environ := @environ sys;
     subprocess_run := fun cmd =>
       match @subprocess_run sys cmd with
       | Completed stdout => if Py.blank stdout then exit_status_1 else Completed stdout
       | failure => failure
       end |}.

(** A literal-quoting function: the text between single quotes, each
    embedded single quote doubled. *)
Definition single_quote : ascii := ascii_of_nat 39.

Fixpoint doubled (s : string) : string :=
  match s with
  | EmptyString => EmptyString
  | String c r =>
      if Ascii.eqb c single_quote
      then String c (String c (doubled r))
      else String c (doubled r)
  end.

Definition quote_text (s : string) : string :=
  String single_quote (doubled s ++ String single_quote EmptyString).

End Scenario.

(** A database whose table [drafts] can be described and counted but not
    read: its insert-statement query fails. *)
Module MoreScenarios.

Definition locked_answers : list (string * ProcessOutcome) :=
  [ (tables_query, Completed (Scenario.tuples_only ["drafts"; "users"]));
    (columns_query "drafts", Completed (Scenario.tuples_only ["id"; "body"]));
    (count_query "drafts", Completed (Scenario.tuples_only ["3"]));
    (columns_query "users", Completed (Scenario.tuples_only ["id"]));
    (count_query "users", Completed (Scenario.tuples_only ["1"]));
    (insert_query "users" (map column_expr ["id"]),
     Completed (Scenario.tuples_only ["INSERT INTO users VALUES ('1');"])) ].

Definition locked_system : System :=
  {| environ := Scenario.production_url;
     subprocess_run := Scenario.answers locked_answers |}.



(** A table [users] with the columns [id], [name], [updated_at] and two
    rows; the second row was never updated: its [updated_at] is null. *)
Definition users_columns : list string := ["id"; "name"; "updated_at"].

Definition ann_row (reference : string) : Sql.value :=
  if String.eqb reference "id" then Some "1"
  else if String.eqb reference "name" then Some "ann"
  else if String.eqb reference "updated_at" then Some "2025-08-01 10:00:00"
  else None.

Definition bob_row (reference : string) : Sql.value :=
  if String.eqb reference "id" then Some "2"
  else if String.eqb reference "name" then Some "bob"
  else None.

(** The answer to the insert-statement query: one line for each row, the
    value of the select item on it. *)
Definition users_rows_answers : list (string * ProcessOutcome) :=
  [ (tables_query, Completed (Scenario.tuples_only ["users"]));
    (columns_query "users", Completed (Scenario.tuples_only users_columns));
    (count_query "users", Completed (Scenario.tuples_only ["2"]));
    (insert_query "users" (map column_expr users_columns),
     Completed (Scenario.tuples_only
       (map (fun row => Sql.shown
               (Sql.insert_statement Scenario.quote_text "users" row users_columns))
            [ann_row; bob_row]))) ].

Definition users_rows_system : System :=
  {| environ := Scenario.production_url;
     subprocess_run := Scenario.answers users_rows_answers |}.

End MoreScenarios.

(** * Properties *)

(** ** The string methods *)

Lemma nonempty_false (s : string) : Py.nonempty s = false <-> s = EmptyString.
Proof. destruct s; simpl; split; congruence. Qed.

Lemma nonempty_true (s : string) : Py.nonempty s = true <-> s <> EmptyString.
Proof. destruct s; simpl; split; congruence. Qed.

Lemma append_statements_acc (lines dump_content : list string) :
  append_statements lines dump_content
  = dump_content ++ filter Py.nonempty (map Py.strip lines).
Proof.
  revert dump_content.
  induction lines as [|stmt rest IH]; intros d; simpl.
  - now rewrite app_nil_r.
  - destruct (Py.nonempty (Py.strip stmt)); rewrite IH.
    + now rewrite <- app_assoc.
    + reflexivity.
Qed.

Lemma build_column_list_acc (columns column_list : list string) :
  build_column_list columns column_list = column_list ++ map column_expr columns.
Proof.
  revert column_list.
  induction columns as [|col rest IH]; intros acc; simpl.
  - now rewrite app_nil_r.
  - rewrite IH. now rewrite <- app_assoc.
Qed.

Lemma string_app_assoc (a b c : string) :
  ((a ++ b) ++ c = a ++ (b ++ c))%string.
Proof. induction a; simpl; congruence. Qed.

Lemma string_app_length (a b : string) :
  String.length (a ++ b) = String.length a + String.length b.
Proof. induction a; simpl; congruence. Qed.

Example strip_example :
  Py.strip (String " " (" a b " ++ Py.nl)) = "a b".
Proof. reflexivity. Qed.

Example split_lines_example :
  Py.split_lines ("a" ++ Py.nl ++ Py.nl ++ " b") = ["a"; EmptyString; " b"]
  /\ Py.split_lines EmptyString = [EmptyString].
Proof. split; reflexivity. Qed.

Example join_example : Py.join ", " ["a"; "b"; "c"] = "a, b, c".
Proof. reflexivity. Qed.

Example endswith_example :
  Py.endswith "name::text" "::text" = true /\ Py.endswith "text" "::text" = false.
Proof. split; reflexivity. Qed.

Example upper_example : Py.upper "user_sessions2" = "USER_SESSIONS2".
Proof. reflexivity. Qed.

Example stripped_lines_example :
  Py.stripped_lines (" id" ++ Py.nl ++ "  " ++ Py.nl ++ " name ") = ["id"; "name"].
Proof. reflexivity. Qed.

(** White space and [strip]. *)

Lemma lstrip_blank (s : string) : Py.blank s = true -> Py.lstrip s = EmptyString.
Proof.
  induction s as [|c r IH]; simpl; intros H; [reflexivity|].
  apply andb_true_iff in H as [Hc Hr]. rewrite Hc. auto.
Qed.

Lemma rstrip_blank (s : string) : Py.blank s = true -> Py.rstrip s = EmptyString.
Proof.
  induction s as [|c r IH]; simpl; intros H; [reflexivity|].
  apply andb_true_iff in H as [Hc Hr]. rewrite (IH Hr), Hc. reflexivity.
Qed.

Lemma strip_blank (s : string) : Py.blank s = true -> Py.strip s = EmptyString.
Proof. intros H. unfold Py.strip. now rewrite (lstrip_blank _ H). Qed.

Lemma rstrip_empty (s : string) : Py.rstrip s = EmptyString -> Py.blank s = true.
Proof.
  induction s as [|c r IH]; simpl; intros H; [reflexivity|].
  destruct (Py.rstrip r) eqn:Hr; [|discriminate].
  destruct (Py.isspace c); [|discriminate].
  now rewrite IH.
Qed.

Lemma lstrip_blank_inv (s : string) : Py.blank (Py.lstrip s) = true -> Py.blank s = true.
Proof.
  induction s as [|c r IH]; simpl; intros H; [reflexivity|].
  destruct (Py.isspace c) eqn:Hc; simpl in *.
  - auto.
  - now rewrite Hc in H.
Qed.

Lemma strip_empty (s : string) : Py.strip s = EmptyString -> Py.blank s = true.
Proof. intros H. apply lstrip_blank_inv, rstrip_empty, H. Qed.

Lemma strip_empty_iff (s : string) : Py.strip s = EmptyString <-> Py.blank s = true.
Proof. split; [apply strip_empty | apply strip_blank]. Qed.

Lemma lstrip_head (s : string) :
  Py.lstrip s = EmptyString
  \/ exists c r, Py.lstrip s = String c r /\ Py.isspace c = false.
Proof.
  induction s as [|c r IH]; simpl; [now left|].
  destruct (Py.isspace c) eqn:Hc; [exact IH|].
  right. now exists c, r.
Qed.

Lemma strip_head (s : string) :
  Py.strip s = EmptyString
  \/ exists c r, Py.strip s = String c r /\ Py.isspace c = false.
Proof.
  unfold Py.strip.
  destruct (lstrip_head s) as [H | (c & r & H & Hc)]; rewrite H.
  - now left.
  - right. simpl. rewrite Hc.
    destruct (Py.rstrip r) as [|c' r']; eauto.
Qed.

Lemma rstrip_idem (s : string) : Py.rstrip (Py.rstrip s) = Py.rstrip s.
Proof.
  induction s as [|c r IH]; [reflexivity|].
  cbn [Py.rstrip]. destruct (Py.rstrip r) as [|c' r'] eqn:Hr.
  - destruct (Py.isspace c) eqn:Hc; [reflexivity|].
    cbn [Py.rstrip]. now rewrite Hc.
  - cbn [Py.rstrip] in *. now rewrite IH.
Qed.

Lemma strip_idem (s : string) : Py.strip (Py.strip s) = Py.strip s.
Proof.
  unfold Py.strip.
  destruct (lstrip_head s) as [H | (c & r & H & Hc)]; rewrite H; [reflexivity|].
  assert (Hl : Py.lstrip (Py.rstrip (String c r)) = Py.rstrip (String c r)).
  { cbn [Py.rstrip]. destruct (Py.rstrip r); rewrite ?Hc; cbn [Py.lstrip]; now rewrite Hc. }
  rewrite Hl. apply rstrip_idem.
Qed.

(** A text that [strip] returned is empty or not blank. *)
Lemma strip_not_blank (s : string) :
  Py.nonempty (Py.strip s) = true -> Py.blank (Py.strip s) = false.
Proof.
  destruct (strip_head s) as [H | (c & r & H & Hc)]; rewrite H; simpl.
  - discriminate.
  - now rewrite Hc.
Qed.

Lemma split_lines_blank (s : string) :
  Forall (fun l => Py.blank l = true) (Py.split_lines s) -> Py.blank s = true.
Proof.
  induction s as [|c r IH]; simpl; intros H; [reflexivity|].
  destruct (Ascii.eqb_spec c Py.newline) as [->|Hn].
  - inversion H; subst. now rewrite IH.
  - destruct (Py.split_lines r) as [|l ls]; inversion H as [|? ? Hl Hls]; subst.
    + simpl in Hl. apply andb_true_iff in Hl as [Hc _]. rewrite Hc.
      simpl. apply IH. constructor.
    + simpl in Hl. apply andb_true_iff in Hl as [Hc Hl']. rewrite Hc.
      simpl. apply IH. now constructor.
Qed.

Lemma stripped_lines_nil (s : string) :
  Py.stripped_lines s = [] -> Py.blank s = true.
Proof.
  unfold Py.stripped_lines. intros H. apply split_lines_blank.
  induction (Py.split_lines s) as [|l ls IH]; constructor; simpl in H.
  - apply strip_empty. destruct (Py.strip l); [reflexivity | discriminate].
  - apply IH. destruct (Py.nonempty (Py.strip l)); [discriminate | exact H].
Qed.

Lemma stripped_lines_filter (s : string) :
  Py.stripped_lines s
  = map Py.strip (filter (fun l => Py.nonempty (Py.strip l)) (Py.split_lines s)).
Proof.
  unfold Py.stripped_lines.
  induction (Py.split_lines s) as [|l ls IH]; simpl; [reflexivity|].
  destruct (Py.nonempty (Py.strip l)); simpl; now rewrite IH.
Qed.

(** [join] over a concatenation. *)
Lemma join_app (sep : string) (a b : list string) :
  a <> [] -> b <> [] ->
  Py.join sep (a ++ b) = (Py.join sep a ++ sep ++ Py.join sep b)%string.
Proof.
  intros Ha Hb. induction a as [|x a IH]; [congruence|].
  destruct a as [|y a].
  - simpl. destruct b; [congruence | reflexivity].
  - change (Py.join sep ((x :: y :: a) ++ b))
      with (x ++ sep ++ Py.join sep ((y :: a) ++ b))%string.
    rewrite IH by discriminate.
    change (Py.join sep (x :: y :: a)) with (x ++ sep ++ Py.join sep (y :: a))%string.
    now rewrite !string_app_assoc.
Qed.

(** [endswith]: the text is something followed by the suffix. *)
Lemma substring_all (s : string) : substring 0 (String.length s) s = s.
Proof. induction s; simpl; congruence. Qed.

Lemma substring_skip (p s : string) (k : nat) :
  substring (String.length p) k (p ++ s) = substring 0 k s.
Proof. induction p; simpl; auto. Qed.

Lemma substring_split (s : string) (n : nat) :
  n <= String.length s ->
  s = (substring 0 n s ++ substring n (String.length s - n) s)%string.
Proof.
  revert n. induction s as [|c r IH]; intros n Hn; simpl in *.
  - destruct n; reflexivity.
  - destruct n; simpl.
    + now rewrite substring_all.
    + f_equal. apply IH. lia.
Qed.

Lemma endswith_iff (s suffix : string) :
  Py.endswith s suffix = true <-> exists p, s = (p ++ suffix)%string.
Proof.
  unfold Py.endswith. split.
  - intros H. apply andb_true_iff in H as [Hle Heq].
    apply Nat.leb_le in Hle. apply String.eqb_eq in Heq.
    exists (substring 0 (String.length s - String.length suffix) s).
    pose proof (substring_split s (String.length s - String.length suffix)) as Hs.
    replace (String.length s - (String.length s - String.length suffix))
      with (String.length suffix) in Hs by lia.
    rewrite Heq in Hs. apply Hs. lia.
  - intros [p ->]. rewrite string_app_length.
    apply andb_true_iff. split.
    + apply Nat.leb_le. lia.
    + replace (String.length p + String.length suffix - String.length suffix)
        with (String.length p) by lia.
      rewrite substring_skip, substring_all. apply String.eqb_refl.
Qed.

(** ** The script computes the expected quantities *)

Section ScriptFacts.

Context {sys : System}.

Lemma run_sql_query_spec (query : string) (w : World) :
  run_sql_query query w
  = (query_result query,
     mkWorld (launched w ++ [psql_cmd query])
             (printed w ++ query_report query)
             (files w)).
Proof.
  unfold run_sql_query, query_result, query_report, bind, run_process.
  destruct (subprocess_run (psql_cmd query)) as [out|e err]; simpl.
  - now rewrite app_nil_r.
  - unfold ret. now rewrite <- app_assoc.
Qed.

Lemma statements_of_lines (table : string) :
  statements_of table
  = Py.stripped_lines
      (text (query_result (statements_query table))).
Proof.
  unfold statements_of.
  destruct (query_result _) as [[|c s]|]; simpl; try reflexivity.
  now rewrite append_statements_acc.
Qed.

Lemma process_table_spec (table : string) (dump_content : list string) (w : World) :
  process_table table dump_content w
  = (dump_content ++ table_lines table,
     mkWorld (launched w ++ table_commands table)
             (printed w ++ table_prints table)
             (files w)).
Proof.
  unfold process_table, table_lines, table_commands, table_prints, included.
  destruct (String.eqb table excluded_table); cbn [negb andb].
  - unfold ret. rewrite !app_nil_r. now destruct w.
  - unfold bind at 1. unfold print at 1.
    unfold bind at 1. rewrite run_sql_query_spec. cbn [launched printed files].
    destruct (Py.truthy (query_result (columns_query table))) eqn:Hc; cbn [negb].
    + unfold bind at 1. rewrite run_sql_query_spec. cbn [launched printed files].
      unfold generate_insert_statements.
      unfold bind at 1. unfold print at 1.
      unfold bind at 1. rewrite run_sql_query_spec. cbn [launched printed files].
      unfold ret, section_of, statements_of, statements_query, columns_of, row_count_of.
      f_equal.
      * destruct (Py.truthy (query_result (insert_query _ _))).
        -- rewrite !append_statements_acc. cbn [app].
           now rewrite <- !app_assoc.
        -- cbn [app]. now rewrite <- !app_assoc.
      * f_equal; now rewrite <- !app_assoc.
    + unfold ret. now rewrite !app_nil_r, <- !app_assoc.
Qed.

Lemma process_tables_spec (tables dump_content : list string) (w : World) :
  process_tables tables dump_content w
  = (dump_content ++ flat_map table_lines tables,
     mkWorld (launched w ++ flat_map table_commands tables)
             (printed w ++ flat_map table_prints tables)
             (files w)).
Proof.
  revert dump_content w.
  induction tables as [|table rest IH]; intros d w; cbn [process_tables flat_map].
  - unfold ret. rewrite !app_nil_r. now destruct w.
  - unfold bind. rewrite process_table_spec, IH. cbn [launched printed files].
    now rewrite <- !app_assoc.
Qed.

Lemma main_writes (w : World) :
  Py.truthy (query_result tables_query) = true ->
  main w
  = (tt,
     mkWorld (launched w ++ psql_cmd tables_query :: flat_map table_commands catalog_tables)
             (printed w ++ query_report tables_query
                ++ flat_map table_prints catalog_tables
                ++ [("Complete production dump generated: " ++ output_file)%string])
             (fun n => if String.eqb n output_file then Some dump_text else files w n)).
Proof.
  intros Ht. unfold main.
  unfold bind at 1. rewrite run_sql_query_spec. rewrite Ht. cbn [negb].
  unfold bind at 1. rewrite process_tables_spec. cbn [launched printed files].
  unfold bind, write_file, print, dump_text, catalog_tables. cbn [launched printed files].
  rewrite <- !app_assoc. reflexivity.
Qed.

Lemma main_aborts (w : World) :
  Py.truthy (query_result tables_query) = false ->
  main w
  = (tt,
     mkWorld (launched w ++ [psql_cmd tables_query])
             (printed w ++ query_report tables_query ++ ["Failed to get table list"])
             (files w)).
Proof.
  intros Ht. unfold main.
  unfold bind at 1. rewrite run_sql_query_spec. rewrite Ht. cbn [negb].
  unfold print. cbn [launched printed files]. now rewrite <- app_assoc.
Qed.

Lemma answered_truthy (query : string) :
  answered query <-> Py.truthy (query_result query) = true.
Proof.
  unfold answered, query_result. split.
  - intros (out & -> & Hb). simpl.
    destruct (Py.nonempty (Py.strip out)) eqn:Hn; [reflexivity|].
    apply nonempty_false, strip_empty in Hn. congruence.
  - destruct (subprocess_run (psql_cmd query)) as [out|e err]; simpl; [|discriminate].
    intros Hn. exists out. split; [reflexivity|].
    destruct (Py.blank out) eqn:Hb; [|reflexivity].
    apply strip_blank in Hb. rewrite Hb in Hn. discriminate.
Qed.

Lemma not_answered_unusable (query : string) :
  Py.truthy (query_result query) = false <-> unusable (subprocess_run (psql_cmd query)).
Proof.
  unfold query_result, unusable.
  destruct (subprocess_run (psql_cmd query)) as [out|e err]; simpl.
  - rewrite nonempty_false. apply strip_empty_iff.
  - tauto.
Qed.

Lemma catalog_nonempty :
  Py.truthy (query_result tables_query) = true -> catalog_tables <> [].
Proof.
  unfold catalog_tables, query_result.
  destruct (subprocess_run (psql_cmd tables_query)) as [out|e err]; simpl; [|discriminate].
  intros Hn Hnil. apply stripped_lines_nil in Hnil.
  apply strip_not_blank in Hn. congruence.
Qed.



Lemma filter_count_occ (f : string -> bool) (l : list string) (t : string) :
  f t = true ->
  count_occ string_dec (filter f l) t = count_occ string_dec l t.
Proof.
  intros Ht. induction l as [|x l IH]; [reflexivity|].
  cbn [filter]. destruct (f x) eqn:Hx.
  - cbn [count_occ]. destruct (string_dec x t); now rewrite IH.
  - cbn [count_occ]. destruct (string_dec x t) as [->|]; [congruence | exact IH].
Qed.


Lemma written_file (w : World) :
  Py.truthy (query_result tables_query) = true ->
  files (snd (main w)) output_file = Some dump_text.
Proof.
  intros Ht. rewrite (main_writes w Ht). cbn [snd files].
  now rewrite String.eqb_refl.
Qed.

(** ** The claims *)

(** C2 (as amended).  When the catalog query is answered, the file is
    written, begins with the header block and ends with the footer
    block, and the header is directly followed by the footer when no table
    of the answer gets a section; the answer then names at least one
    table.  When the catalog query is not answered (it failed, or its
    table list is empty), the files are left as they were. *)
Theorem header_and_footer_frame (w : World) :
  (answered tables_query ->
   catalog_tables <> []
   /\ exists middle,
        files (snd (main w)) output_file
        = Some (Py.join Py.nl header ++ Py.nl ++ middle ++ Py.join Py.nl footer)%string
        /\ ((forall t, In t catalog_tables -> included t = false) ->
            middle = EmptyString))
  /\ (~ answered tables_query -> files (snd (main w)) = files w).
Proof.
  split.
  - intros Hcat. apply answered_truthy in Hcat. split; [now apply catalog_nonempty|].
    rewrite (written_file w Hcat). unfold dump_text.
    destruct (flat_map table_lines catalog_tables) as [|l body] eqn:Hbody.
    + exists EmptyString. split; [|reflexivity].
      cbn [app]. now rewrite join_app by discriminate.
    + exists (Py.join Py.nl (l :: body) ++ Py.nl)%string. split.
      * rewrite join_app by discriminate.
        rewrite (join_app Py.nl (l :: body)) by discriminate.
        now rewrite !string_app_assoc.
      * intros Hnone. exfalso.
        assert (Hnil : flat_map table_lines catalog_tables = []).
        { clear Hbody. induction catalog_tables as [|t rest IH]; [reflexivity|].
          cbn [flat_map]. unfold table_lines at 1.
          rewrite (Hnone t) by now left.
          apply IH. intros; apply Hnone; now right. }
        congruence.
  - intros Hcat. rewrite main_aborts; [reflexivity|].
    destruct (Py.truthy (query_result tables_query)) eqn:Ht; [|reflexivity].
    now apply answered_truthy in Ht.
Qed.

(** C3.  When the table-listing round trip fails, [main] prints the two
    lines of the error report and [Failed to get table list], leaves every
    file as it was, and has launched nothing but the catalog query. *)
Theorem catalog_failure_aborts (w : World) (e stderr : string) :
  subprocess_run (psql_cmd tables_query) = CalledProcessError e stderr ->
  main w
  = (tt,
     mkWorld (launched w ++ [psql_cmd tables_query])
             (printed w ++ [("Error running query: " ++ e)%string;
                            ("stderr: " ++ stderr)%string;
                            "Failed to get table list"])
             (files w)).
Proof.
  intros Hfail. rewrite main_aborts.
  - unfold query_report. now rewrite Hfail.
  - unfold query_result. now rewrite Hfail.
Qed.

(** C6 (as amended).  A run that writes the file ends it with the six
    footer lines: a rule line, the comment on re-enabling the checks, a
    second rule line, the [SET] statement, a blank line and the completion
    comment, with nothing between them. *)
Theorem file_ends_with_footer (w : World) :
  answered tables_query ->
  exists before,
    files (snd (main w)) output_file
    = Some (before ++ Py.nl ++
            Py.join Py.nl
              [ "-- ============================================================================";
                "-- Re-enable foreign key checks";
                "-- ============================================================================";
                "SET session_replication_role = DEFAULT;";
                EmptyString;
                "-- Import complete! All production data has been restored." ])%string.
Proof.
  intros Hcat. apply answered_truthy in Hcat.
  rewrite (written_file w Hcat). unfold dump_text.
  exists (Py.join Py.nl (header ++ flat_map table_lines catalog_tables)).
  rewrite app_assoc. rewrite join_app; [reflexivity | | discriminate].
  unfold header. discriminate.
Qed.

Lemma nonempty_strip (l : string) : Py.nonempty (Py.strip l) = negb (Py.blank l).
Proof.
  destruct (Py.blank l) eqn:Hb.
  - now rewrite (strip_blank _ Hb).
  - destruct (Py.nonempty (Py.strip l)) eqn:Hn; [reflexivity|].
    apply nonempty_false, strip_empty in Hn. congruence.
Qed.

Lemma process_table_included (table : string) (dump_content : list string) (w : World) :
  included table = true ->
  fst (process_table table dump_content w)
  = dump_content
      ++ [rule; banner_line table (row_count_of table); rule]
      ++ statements_of table ++ [EmptyString].
Proof.
  intros Hin. rewrite process_table_spec. cbn [fst].
  unfold table_lines. now rewrite Hin.
Qed.

Lemma included_iff (table : string) :
  included table = true <-> table <> "sessions" /\ answered (columns_query table).
Proof.
  unfold included. rewrite andb_true_iff, answered_truthy, negb_true_iff.
  now rewrite String.eqb_neq.
Qed.

(** C7 (as amended).  When the insert-statement round trip of an included
    table returns a text, each line of it that is not blank is appended
    with its leading and trailing white space removed, in order, after the
    banner, and then one empty line; blank lines are not appended.  A
    line that has no white space at either end is thus appended as it is. *)
Theorem statement_lines_stripped
    (table returned : string) (dump_content : list string) (w : World) :
  included table = true ->
  query_result (statements_query table) = Some returned ->
  fst (process_table table dump_content w)
  = dump_content
      ++ [rule; banner_line table (row_count_of table); rule]
      ++ map Py.strip (filter (fun l => negb (Py.blank l)) (Py.split_lines returned))
      ++ [EmptyString]
  /\ (forall l, In l (Py.split_lines returned) -> Py.blank l = false -> Py.strip l = l ->
        In l (fst (process_table table dump_content w))).
Proof.
  intros Hin Hret.
  assert (Hst : statements_of table
                = map Py.strip (filter (fun l => negb (Py.blank l)) (Py.split_lines returned))).
  { rewrite statements_of_lines, Hret. cbn [text].
    rewrite stripped_lines_filter. f_equal.
    apply filter_ext. intros l. apply nonempty_strip. }
  rewrite (process_table_included _ _ w Hin), Hst. split; [reflexivity|].
  intros l Hl Hb Hs. apply in_or_app. right. apply in_or_app. right.
  apply in_or_app. left. rewrite <- Hs. apply in_map.
  apply filter_In. split; [exact Hl | now rewrite Hb].
Qed.

(** C8.  For a table other than [sessions] whose columns query is
    answered and whose insert-statement query prints no row (nothing but
    white space), the iteration appends the three banner lines and then
    directly the empty line: this is the whole section of the table. *)
Theorem empty_table_section
    (table stdout : string) (dump_content : list string) (w : World) :
  table <> "sessions" ->
  answered (columns_query table) ->
  subprocess_run (psql_cmd (statements_query table)) = Completed stdout ->
  Py.blank stdout = true ->
  fst (process_table table dump_content w)
  = dump_content
      ++ [ "-- ============================================================================";
           banner_line table (row_count_of table);
           "-- ============================================================================";
           EmptyString ]
  /\ section_of table = [rule; banner_line table (row_count_of table); rule; EmptyString].
Proof.
  intros Hne Hcols Hrun Hblank.
  assert (Hin : included table = true) by now apply included_iff.
  assert (Hst : statements_of table = []).
  { unfold statements_of, query_result. rewrite Hrun.
    now rewrite (strip_blank _ Hblank). }
  rewrite (process_table_included _ _ w Hin).
  unfold section_of. rewrite Hst. split; reflexivity.
Qed.

End ScriptFacts.

(** ** The column expressions *)

Lemma special_column_iff (col : string) :
  special_column col = true
  <-> col = "id" \/ col = "created_at" \/ col = "updated_at"
      \/ exists p, col = (p ++ "::text")%string.
Proof.
  unfold special_column, Py.mem. cbn [existsb].
  rewrite !orb_true_iff, endswith_iff, !String.eqb_eq. intuition discriminate.
Qed.

Lemma render_column_ast (col : string) :
  Sql.render (Sql.column_ast col) = column_expr col.
Proof.
  unfold Sql.column_ast, column_expr.
  destruct (special_column col); cbn [Sql.render].
  - reflexivity.
  - now rewrite !string_app_assoc.
Qed.

(** C5.  In the column list of the insert-statement builder, each column
    named [id], [created_at] or [updated_at] and each column whose name
    ends with [::text] is written [quote_literal(col)], which is not the
    cast-and-coalesce form; every other column is written
    [COALESCE(quote_literal(col::text), 'NULL')]; the builder sends the
    query made of this list. *)
Theorem column_formats {sys : System} (table_name : string) (columns : list string)
    (w : World) :
  let column_list := build_column_list columns [] in
  List.length column_list = List.length columns
  /\ (forall i col, nth_error columns i = Some col ->
       ((col = "id" \/ col = "created_at" \/ col = "updated_at"
         \/ (exists p, col = (p ++ "::text")%string)) ->
        nth_error column_list i = Some ("quote_literal(" ++ col ++ ")")%string
        /\ nth_error column_list i
           <> Some ("COALESCE(quote_literal(" ++ col ++ "::text), 'NULL')")%string)
       /\ (~ (col = "id" \/ col = "created_at" \/ col = "updated_at"
              \/ (exists p, col = (p ++ "::text")%string)) ->
           nth_error column_list i
           = Some ("COALESCE(quote_literal(" ++ col ++ "::text), 'NULL')")%string))
  /\ launched (snd (generate_insert_statements table_name columns w))
     = launched w ++ [psql_cmd (insert_query table_name column_list)].
Proof.
  cbv zeta. split; [|split].
  - rewrite build_column_list_acc. apply length_map.
  - rewrite build_column_list_acc. cbn [app].
    intros i col Hi.
    rewrite nth_error_map, Hi. cbn [option_map]. unfold column_expr.
    split.
    + intros Hs. apply special_column_iff in Hs. rewrite Hs.
      split; [reflexivity|]. intros H. injection H. discriminate.
    + intros Hs. destruct (special_column col) eqn:E; [|reflexivity].
      apply special_column_iff in E. contradiction.
  - unfold generate_insert_statements, bind, print.
    now rewrite run_sql_query_spec.
Qed.

(** ** Two databases that the script cannot tell apart *)

Lemma truthy_text (r : option string) : Py.truthy r = Py.nonempty (text r).
Proof. now destruct r. Qed.

Lemma columns_query_not_count (table table' : string) :
  columns_query table <> count_query table'.
Proof.
  intros H. apply (f_equal starts_with_newline) in H. discriminate H.
Qed.

Lemma insert_query_not_count (table table' : string) (column_list : list string) :
  insert_query table column_list <> count_query table'.
Proof.
  intros H. apply (f_equal starts_with_newline) in H. discriminate H.
Qed.

Lemma psql_cmd_query {sys : System} (q q' : string) :
  psql_cmd q = psql_cmd q' -> q = q'.
Proof. unfold psql_cmd. intros H. now injection H. Qed.

Section Agreement.

Variables s1 s2 : System.

Hypothesis same_environ : forall key, @environ s1 key = @environ s2 key.

Lemma psql_cmd_agree (q : string) : @psql_cmd s1 q = @psql_cmd s2 q.
Proof. unfold psql_cmd, env_get. now rewrite same_environ. Qed.

Lemma same_outcome_text (q : string) :
  @subprocess_run s1 (@psql_cmd s1 q) = @subprocess_run s2 (@psql_cmd s1 q) ->
  same_text s1 s2 q.
Proof.
  unfold same_text, query_result. rewrite <- psql_cmd_agree. now intros ->.
Qed.

Lemma unusable_text (q : string) :
  @unusable (@subprocess_run s1 (@psql_cmd s1 q)) ->
  @unusable (@subprocess_run s2 (@psql_cmd s1 q)) ->
  same_text s1 s2 q.
Proof.
  unfold same_text, query_result, unusable. rewrite <- psql_cmd_agree.
  destruct (@subprocess_run s1 _) as [o1|]; destruct (@subprocess_run s2 _) as [o2|];
    intros H1 H2; cbn [text];
    rewrite ?(strip_blank _ H1), ?(strip_blank _ H2); reflexivity.
Qed.

Lemma columns_of_agree (t : string) :
  same_text s1 s2 (columns_query t) -> @columns_of s1 t = @columns_of s2 t.
Proof. unfold columns_of, same_text. now intros ->. Qed.

Lemma statements_query_agree (t : string) :
  same_text s1 s2 (columns_query t) -> @statements_query s1 t = @statements_query s2 t.
Proof. intros H. unfold statements_query. now rewrite (columns_of_agree _ H). Qed.

Lemma statements_of_agree (t : string) :
  same_text s1 s2 (columns_query t) ->
  same_text s1 s2 (@statements_query s1 t) ->
  @statements_of s1 t = @statements_of s2 t.
Proof.
  intros Hc Hs. rewrite !statements_of_lines.
  rewrite <- (statements_query_agree _ Hc). unfold same_text in Hs. now rewrite Hs.
Qed.

Lemma row_count_of_agree (t : string) :
  same_text s1 s2 (count_query t) -> @row_count_of s1 t = @row_count_of s2 t.
Proof. unfold row_count_of, same_text. rewrite !truthy_text. now intros ->. Qed.

Lemma included_agree (t : string) :
  same_text s1 s2 (columns_query t) -> @included s1 t = @included s2 t.
Proof. unfold included, same_text. rewrite !truthy_text. now intros ->. Qed.

Lemma table_commands_agree (t : string) :
  same_text s1 s2 (columns_query t) -> @table_commands s1 t = @table_commands s2 t.
Proof.
  intros H. unfold table_commands. rewrite !truthy_text.
  rewrite <- (statements_query_agree _ H), <- !psql_cmd_agree.
  unfold same_text in H. now rewrite H.
Qed.

Lemma table_lines_agree (t : string) :
  same_text s1 s2 (columns_query t) ->
  same_text s1 s2 (count_query t) ->
  same_text s1 s2 (@statements_query s1 t) ->
  @table_lines s1 t = @table_lines s2 t.
Proof.
  intros Hc Hn Hs. unfold table_lines, section_of.
  now rewrite (included_agree _ Hc), (row_count_of_agree _ Hn), (statements_of_agree _ Hc Hs).
Qed.

(** C9.  For an included table, the banner comment line is [-- ], the
    table name in upper case, a space and [(<count> records)]; the count
    shown is "0" when the row-count query fails, and the stripped output
    of that query when it is answered.  A database that differs only in
    its answer to the row-count query gives the same statement lines and
    is sent the same commands: the count changes the banner line alone. *)
Theorem count_only_in_banner (t : string) (dump_content : list string) (w : World) :
  (forall cmd, cmd <> @psql_cmd s1 (count_query t) ->
     @subprocess_run s1 cmd = @subprocess_run s2 cmd) ->
  @included s1 t = true ->
  exists statements,
    fst (@process_table s1 t dump_content w)
    = dump_content
        ++ [rule; ("-- " ++ Py.upper t ++ " (" ++ @row_count_of s1 t ++ " records)")%string; rule]
        ++ statements ++ [EmptyString]
    /\ fst (@process_table s2 t dump_content w)
       = dump_content
           ++ [rule; ("-- " ++ Py.upper t ++ " (" ++ @row_count_of s2 t ++ " records)")%string; rule]
           ++ statements ++ [EmptyString]
    /\ launched (snd (@process_table s1 t dump_content w))
       = launched (snd (@process_table s2 t dump_content w))
    /\ (forall e stderr,
          @subprocess_run s1 (@psql_cmd s1 (count_query t)) = CalledProcessError e stderr ->
          @row_count_of s1 t = "0")
    /\ (forall stdout,
          @subprocess_run s1 (@psql_cmd s1 (count_query t)) = Completed stdout ->
          Py.blank stdout = false ->
          @row_count_of s1 t = Py.strip stdout).
Proof.
  intros Hagree Hin.
  assert (Hc : same_text s1 s2 (columns_query t)).
  { apply same_outcome_text, Hagree. intros H.
    apply psql_cmd_query in H. now apply columns_query_not_count in H. }
  assert (Hs : same_text s1 s2 (@statements_query s1 t)).
  { apply same_outcome_text, Hagree. intros H.
    apply psql_cmd_query in H. now apply insert_query_not_count in H. }
  assert (Hin2 : @included s2 t = true) by now rewrite <- (included_agree _ Hc).
  exists (@statements_of s1 t). repeat split.
  - now rewrite (process_table_included _ _ w Hin).
  - rewrite (process_table_included _ _ w Hin2).
    now rewrite (statements_of_agree _ Hc Hs).
  - rewrite !process_table_spec. cbn [snd launched].
    now rewrite (table_commands_agree _ Hc).
  - intros e err Hfail. unfold row_count_of, query_result. now rewrite Hfail.
  - intros out Hout Hb. unfold row_count_of, query_result. rewrite Hout.
    cbn [Py.truthy text]. rewrite nonempty_strip, Hb. apply strip_idem.
Qed.

(** C10.  [run_sql_query] returns the stripped output, so a round trip
    whose output is white space only gives a false value, as a failed one
    does.  Two databases that differ only where both outcomes are unusable
    (a failure, or an output of white space only) lead [main] to the same
    files and the same commands.  In particular a table whose columns
    query is unusable is skipped after that one query, and an unusable
    answer to the catalog query aborts the run: the files stay as they
    were and [Failed to get table list] is the last line printed. *)
Theorem blank_output_is_failure (w : World) :
  (forall cmd,
     @subprocess_run s1 cmd = @subprocess_run s2 cmd
     \/ (unusable (@subprocess_run s1 cmd) /\ unusable (@subprocess_run s2 cmd))) ->
  (forall q w', Py.truthy (fst (@run_sql_query s1 q w')) = false
                <-> unusable (@subprocess_run s1 (@psql_cmd s1 q)))
  /\ files (snd (@main s1 w)) = files (snd (@main s2 w))
  /\ launched (snd (@main s1 w)) = launched (snd (@main s2 w))
  /\ (forall t dump_content w',
        unusable (@subprocess_run s1 (@psql_cmd s1 (columns_query t))) ->
        fst (@process_table s1 t dump_content w') = dump_content
        /\ (t <> "sessions" ->
            launched (snd (@process_table s1 t dump_content w'))
            = launched w' ++ [@psql_cmd s1 (columns_query t)]))
  /\ (unusable (@subprocess_run s1 (@psql_cmd s1 tables_query)) ->
      files (snd (@main s1 w)) = files w
      /\ launched (snd (@main s1 w)) = launched w ++ [@psql_cmd s1 tables_query]
      /\ exists report, printed (snd (@main s1 w))
                        = printed w ++ report ++ ["Failed to get table list"]).
Proof.
  intros Hrel.
  assert (Htext : forall q, same_text s1 s2 q).
  { intros q. destruct (Hrel (@psql_cmd s1 q)) as [H | [H1 H2]].
    - now apply same_outcome_text.
    - now apply unusable_text. }
  assert (Hlines : forall l, flat_map (@table_lines s1) l = flat_map (@table_lines s2) l).
  { induction l as [|t l IH]; [reflexivity|]. cbn [flat_map].
    now rewrite IH, (table_lines_agree _ (Htext _) (Htext _) (Htext _)). }
  assert (Hcmds : forall l, flat_map (@table_commands s1) l = flat_map (@table_commands s2) l).
  { induction l as [|t l IH]; [reflexivity|]. cbn [flat_map].
    now rewrite IH, (table_commands_agree _ (Htext _)). }
  assert (Hcat : @catalog_tables s1 = @catalog_tables s2).
  { unfold catalog_tables. now rewrite (Htext tables_query). }
  assert (Htr : Py.truthy (@query_result s1 tables_query)
                = Py.truthy (@query_result s2 tables_query)).
  { rewrite !truthy_text. now rewrite (Htext tables_query). }
  split; [|split; [|split; [|split]]].
  - intros q w'. rewrite run_sql_query_spec. cbn [fst]. apply not_answered_unusable.
  - destruct (Py.truthy (@query_result s1 tables_query)) eqn:H1.
    + rewrite (main_writes w H1), (main_writes w (eq_sym Htr)).
      cbn [snd files]. unfold dump_text. now rewrite Hcat, Hlines.
    + rewrite (main_aborts w H1), (main_aborts w (eq_sym Htr)).
      reflexivity.
  - destruct (Py.truthy (@query_result s1 tables_query)) eqn:H1.
    + rewrite (main_writes w H1), (main_writes w (eq_sym Htr)).
      cbn [snd launched]. now rewrite Hcat, Hcmds, psql_cmd_agree.
    + rewrite (main_aborts w H1), (main_aborts w (eq_sym Htr)).
      cbn [snd launched]. now rewrite psql_cmd_agree.
  - intros t d w' Hun. apply not_answered_unusable in Hun.
    rewrite process_table_spec. cbn [fst snd launched].
    unfold table_lines, table_commands, included. rewrite Hun.
    rewrite andb_false_r. split; [apply app_nil_r|].
    intros Hne. apply String.eqb_neq in Hne.
    unfold excluded_table. now rewrite Hne.
  - intros Hun. apply not_answered_unusable in Hun.
    rewrite (main_aborts w Hun). cbn [snd files launched printed].
    repeat split. now exists (@query_report s1 tables_query).
Qed.

End Agreement.

(** ** Runs on concrete databases *)

Section Runs.

Import Scenario.

(** The scenario of the specification: a [USERS (2 records)] banner with
    two statements, and nothing of [sessions]. *)
Example users_dump :
  files (snd (@main users_system empty_world)) output_file
  = Some (Py.join Py.nl
      [ "-- COMPLETE PRODUCTION DATABASE DUMP";
        "-- Generated: August 27, 2025";
        "-- Contains ALL production data";
        EmptyString;
        "-- Disable foreign key checks for import";
        "SET session_replication_role = replica;";
        EmptyString;
        "-- ============================================================================";
        "-- USERS (2 records)";
        "-- ============================================================================";
        "INSERT INTO users VALUES ('1','ann','2025-08-01 10:00:00');";
        "INSERT INTO users VALUES ('2','bob','2025-08-02 11:30:00');";
        EmptyString;
        "-- ============================================================================";
        "-- Re-enable foreign key checks";
        "-- ============================================================================";
        "SET session_replication_role = DEFAULT;";
        EmptyString;
        "-- Import complete! All production data has been restored." ]).
Proof. vm_compute. reflexivity. Qed.

Lemma users_catalog_answered : @answered users_system tables_query.
Proof. eexists. split; reflexivity. Defined.


(** C2, as stated, fails: the catalog query succeeds with zero tables and
    no file is written. *)
Lemma empty_catalog_not_written :
  @subprocess_run empty_catalog_system (@psql_cmd empty_catalog_system tables_query)
  = Completed Py.nl
  /\ Py.stripped_lines Py.nl = []
  /\ files (snd (@main empty_catalog_system empty_world)) output_file = None
  /\ printed (snd (@main empty_catalog_system empty_world)) = ["Failed to get table list"].
Proof. repeat split; vm_compute; reflexivity. Qed.

Lemma header_and_footer_frame_users :
  exists middle,
    files (snd (@main users_system empty_world)) output_file
    = Some (Py.join Py.nl header ++ Py.nl ++ middle ++ Py.join Py.nl footer)%string.
Proof.
  destruct (proj1 (@header_and_footer_frame users_system empty_world)
              users_catalog_answered) as [_ [middle [H _]]].
  exists middle. exact H.
Defined.

Lemma catalog_failure_aborts_unreachable :
  @main unreachable_system empty_world
  = (tt,
     mkWorld [@psql_cmd unreachable_system tables_query]
             [ "Error running query: Command 'psql' returned non-zero exit status 2.";
               "stderr: psql: error: connection to server failed";
               "Failed to get table list" ]
             (files empty_world)).
Proof.
  exact (@catalog_failure_aborts unreachable_system empty_world _ _ eq_refl).
Defined.

Lemma column_formats_example :
  nth_error (build_column_list ["id"; "name"; "payload::text"] []) 1
  = Some "COALESCE(quote_literal(name::text), 'NULL')".
Proof.
  refine (proj2 (proj1 (proj2 (@column_formats users_system "users"
                                 ["id"; "name"; "payload::text"] empty_world))
                   1 "name" eq_refl) _).
  intros [H | [H | [H | [p H]]]]; try discriminate H.
  apply (f_equal (fun s => Py.endswith s "::text")) in H.
  rewrite (proj2 (endswith_iff (p ++ "::text") "::text")) in H by now exists p.
  discriminate H.
Defined.

(** C6, as stated, fails: the file does not end with the five lines
    listed; a second rule line stands between the comment and the [SET]
    statement. *)
Lemma footer_has_second_rule :
  exists content,
    files (snd (@main users_system empty_world)) output_file = Some content
    /\ Py.endswith content (Py.join Py.nl footer_as_listed) = false
    /\ Py.endswith content
         (Py.join Py.nl
            [ "-- Re-enable foreign key checks";
              "-- ============================================================================";
              "SET session_replication_role = DEFAULT;";
              EmptyString;
              "-- Import complete! All production data has been restored." ]) = true.
Proof.
  eexists. split; [vm_compute; reflexivity|].
  split; vm_compute; reflexivity.
Qed.

Lemma file_ends_with_footer_users :
  exists before,
    files (snd (@main users_system empty_world)) output_file
    = Some (before ++ Py.nl ++ Py.join Py.nl footer)%string.
Proof.
  exact (@file_ends_with_footer users_system empty_world users_catalog_answered).
Defined.

(** C7, as stated, fails: the second line of the text the round trip
    returns begins with a space; the dump holds the line without that
    space, and not the line itself. *)
Lemma statement_line_not_verbatim :
  exists returned content,
    @query_result users_system (@statements_query users_system "users") = Some returned
    /\ Py.mem " INSERT INTO users VALUES ('2','bob','2025-08-02 11:30:00');"
              (Py.split_lines returned) = true
    /\ Py.blank " INSERT INTO users VALUES ('2','bob','2025-08-02 11:30:00');" = false
    /\ files (snd (@main users_system empty_world)) output_file = Some content
    /\ Py.mem " INSERT INTO users VALUES ('2','bob','2025-08-02 11:30:00');"
              (Py.split_lines content) = false
    /\ Py.mem "INSERT INTO users VALUES ('2','bob','2025-08-02 11:30:00');"
              (Py.split_lines content) = true.
Proof.
  eexists. eexists.
  split; [vm_compute; reflexivity|].
  split; [vm_compute; reflexivity|].
  split; [vm_compute; reflexivity|].
  split; [vm_compute; reflexivity|].
  split; vm_compute; reflexivity.
Qed.

Lemma statement_lines_stripped_users :
  fst (@process_table users_system "users" [] empty_world)
  = [ rule; "-- USERS (2 records)"; rule;
      "INSERT INTO users VALUES ('1','ann','2025-08-01 10:00:00');";
      "INSERT INTO users VALUES ('2','bob','2025-08-02 11:30:00');";
      EmptyString ].
Proof.
  exact (proj1 (@statement_lines_stripped users_system "users" _ [] empty_world
                  eq_refl eq_refl)).
Defined.

Lemma empty_table_section_drafts :
  fst (@process_table drafts_system "drafts" header empty_world)
  = header ++ [rule; "-- DRAFTS (0 records)"; rule; EmptyString].
Proof.
  refine (proj1 (@empty_table_section drafts_system "drafts" Py.nl header empty_world
                   _ _ eq_refl eq_refl)).
  - discriminate.
  - eexists. split; reflexivity.
Defined.

Lemma count_only_in_banner_users :
  exists statements,
    fst (@process_table users_system "users" [] empty_world)
    = [rule; "-- USERS (2 records)"; rule] ++ statements ++ [EmptyString]
    /\ fst (@process_table users_uncounted_system "users" [] empty_world)
       = [rule; "-- USERS (0 records)"; rule] ++ statements ++ [EmptyString].
Proof.
  destruct (@count_only_in_banner users_system users_uncounted_system
              (fun _ => eq_refl) "users" [] empty_world) as (statements & H1 & H2 & _).
  - intros cmd Hcmd. cbn [subprocess_run users_uncounted_system].
    destruct (list_eq_dec string_dec cmd _) as [E|E]; [contradiction | reflexivity].
  - reflexivity.
  - exists statements. split; [exact H1 | exact H2].
Defined.

Lemma blank_output_is_failure_drafts :
  files (snd (@main drafts_system empty_world))
  = files (snd (@main (failing_when_blank drafts_system) empty_world))
  /\ launched (snd (@main drafts_system empty_world))
     = launched (snd (@main (failing_when_blank drafts_system) empty_world)).
Proof.
  destruct (@blank_output_is_failure drafts_system (failing_when_blank drafts_system)
              (fun _ => eq_refl) empty_world) as (_ & Hf & Hl & _).
  - intros cmd. cbn [subprocess_run failing_when_blank].
    destruct (@subprocess_run drafts_system cmd) as [out|e err]; [|now left].
    destruct (Py.blank out) eqn:Hb; [right | now left].
    split; [exact Hb | exact I].
  - split; [exact Hf | exact Hl].
Defined.

End Runs.

(** * Further properties of the script *)

(** ** Lines and line feeds *)

Lemma has_newline_app (a b : string) :
  has_newline (a ++ b) = has_newline a || has_newline b.
Proof.
  induction a as [|c a IH]; [reflexivity|].
  cbn [append has_newline]. now rewrite IH, orb_assoc.
Qed.

Lemma split_lines_no_newline (s : string) :
  Forall (fun l => has_newline l = false) (Py.split_lines s).
Proof.
  induction s as [|c r IH]; cbn [Py.split_lines].
  - constructor; [reflexivity | constructor].
  - destruct (Ascii.eqb c Py.newline) eqn:Hc.
    + constructor; [reflexivity | exact IH].
    + destruct (Py.split_lines r) as [|l ls].
      * constructor; [|constructor]. cbn [has_newline]. now rewrite Hc.
      * inversion IH as [|? ? Hl Hls]; subst.
        constructor; [|exact Hls]. cbn [has_newline]. now rewrite Hc, Hl.
Qed.

Lemma lstrip_no_newline (s : string) :
  has_newline s = false -> has_newline (Py.lstrip s) = false.
Proof.
  induction s as [|c r IH]; [reflexivity|].
  cbn [Py.lstrip]. destruct (Py.isspace c); [|trivial].
  cbn [has_newline]. intros H. apply orb_false_iff in H as [_ H]. auto.
Qed.

Lemma rstrip_no_newline (s : string) :
  has_newline s = false -> has_newline (Py.rstrip s) = false.
Proof.
  induction s as [|c r IH]; [reflexivity|].
  cbn [has_newline Py.rstrip]. intros H. apply orb_false_iff in H as [Hc Hr].
  specialize (IH Hr). destruct (Py.rstrip r) as [|c' r'].
  - destruct (Py.isspace c); [reflexivity|]. cbn [has_newline]. now rewrite Hc.
  - cbn [has_newline] in *. now rewrite Hc, IH.
Qed.

Lemma strip_no_newline (s : string) :
  has_newline s = false -> has_newline (Py.strip s) = false.
Proof. intros H. now apply rstrip_no_newline, lstrip_no_newline. Qed.

Lemma lstrip_strip (s : string) : Py.lstrip (Py.strip s) = Py.strip s.
Proof.
  unfold Py.strip.
  destruct (lstrip_head s) as [H | (c & r & H & Hc)]; rewrite H; [reflexivity|].
  cbn [Py.rstrip]. destruct (Py.rstrip r); rewrite ?Hc; cbn [Py.lstrip]; now rewrite Hc.
Qed.

Lemma rstrip_strip (s : string) : Py.rstrip (Py.strip s) = Py.strip s.
Proof. unfold Py.strip. apply rstrip_idem. Qed.

Lemma stripped_lines_clean (s x : string) :
  In x (Py.stripped_lines s) -> clean x.
Proof.
  unfold Py.stripped_lines. intros H.
  apply filter_In in H as [H Hn]. apply in_map_iff in H as (l & <- & Hl).
  repeat split.
  - now apply nonempty_true.
  - apply lstrip_strip.
  - apply rstrip_strip.
  - apply strip_no_newline.
    exact (proj1 (Forall_forall _ _) (split_lines_no_newline s) l Hl).
Qed.

Lemma split_lines_single (x : string) :
  has_newline x = false -> Py.split_lines x = [x].
Proof.
  induction x as [|c x IH]; [reflexivity|].
  cbn [has_newline Py.split_lines]. intros H. apply orb_false_iff in H as [Hc Hx].
  now rewrite Hc, (IH Hx).
Qed.

Lemma split_lines_app (x r : string) :
  has_newline x = false ->
  Py.split_lines (x ++ String Py.newline r) = x :: Py.split_lines r.
Proof.
  induction x as [|c x IH]; intros H.
  - cbn [append Py.split_lines]. now rewrite Ascii.eqb_refl.
  - cbn [has_newline] in H. apply orb_false_iff in H as [Hc Hx].
    cbn [append Py.split_lines]. now rewrite Hc, (IH Hx).
Qed.

(** Splitting what [join] made gives the lines back. *)
Lemma split_lines_join (l : list string) :
  l <> [] ->
  Forall (fun x => has_newline x = false) l ->
  Py.split_lines (Py.join Py.nl l) = l.
Proof.
  induction l as [|x l IH]; [congruence|]. intros _ H.
  inversion H as [|? ? Hx Hl]; subst.
  destruct l as [|y l].
  - cbn [Py.join]. now apply split_lines_single.
  - change (Py.join Py.nl (x :: y :: l))
      with (x ++ String Py.newline (Py.join Py.nl (y :: l)))%string.
    rewrite (split_lines_app _ _ Hx). f_equal. apply IH; [discriminate | exact Hl].
Qed.

Lemma upper_char_newline (c : ascii) :
  Ascii.eqb (Py.upper_char c) Py.newline = Ascii.eqb c Py.newline.
Proof. destruct c as [[] [] [] [] [] [] [] []]; reflexivity. Qed.

Lemma upper_no_newline (s : string) : has_newline (Py.upper s) = has_newline s.
Proof.
  induction s as [|c r IH]; [reflexivity|].
  cbn [Py.upper has_newline]. now rewrite upper_char_newline, IH.
Qed.

Lemma string_app_inv_tail (a b s : string) :
  (a ++ s = b ++ s)%string -> a = b.
Proof.
  revert b. induction a as [|c a IH]; intros [|c' b] H; cbn [append] in H.
  - reflexivity.
  - apply (f_equal String.length) in H. cbn [String.length] in H.
    rewrite string_app_length in H. lia.
  - apply (f_equal String.length) in H. cbn [String.length] in H.
    rewrite string_app_length in H. lia.
  - injection H as -> H. f_equal. now apply IH.
Qed.

Lemma prefix_app (p s : string) : prefix p (p ++ s) = true.
Proof.
  induction p as [|c p IH]; cbn [append prefix].
  - now destruct s.
  - destruct (ascii_dec c c); [exact IH | congruence].
Qed.

(** ** What [run_sql_query] returns *)

Section MoreScriptFacts.

Context {sys : System}.

(** X1.  A text returned by [run_sql_query] has no white space left to
    strip at either end, so stripping it again gives the same text; it is
    empty exactly when the process printed white space only. *)
Theorem returned_text_is_stripped (query s : string) (w : World) :
  fst (run_sql_query query w) = Some s ->
  Py.lstrip s = s /\ Py.rstrip s = s /\ Py.strip s = s
  /\ (s = EmptyString <->
      exists stdout, subprocess_run (psql_cmd query) = Completed stdout
                     /\ Py.blank stdout = true).
Proof.
  rewrite run_sql_query_spec. cbn [fst]. unfold query_result.
  destruct (subprocess_run (psql_cmd query)) as [out|e err]; [|discriminate].
  intros H. injection H as <-.
  split; [apply lstrip_strip|]. split; [apply rstrip_strip|].
  split; [apply strip_idem|]. split.
  - intros H. exists out. split; [reflexivity | now apply strip_empty].
  - intros (out' & H & Hb). injection H as <-. now apply strip_blank.
Qed.

Lemma usable_lines_nonempty (query : string) :
  Py.truthy (query_result query) = true ->
  Py.stripped_lines (text (query_result query)) <> [].
Proof.
  unfold query_result.
  destruct (subprocess_run (psql_cmd query)) as [out|e err]; simpl; [|discriminate].
  intros Hn Hnil. apply stripped_lines_nil in Hnil.
  apply strip_not_blank in Hn. congruence.
Qed.

(** X2.  Every table name [main] reads from the catalog answer is not
    empty, contains no line feed, and has no white space at either end,
    whatever its own queries give; and so is every column name [main]
    reads for any table. *)
Theorem listed_names_clean (table col : string) :
  (In table catalog_tables -> clean table)
  /\ (In col (columns_of table) -> clean col).
Proof.
  unfold catalog_tables, columns_of.
  split; intros H; eapply stripped_lines_clean; eassumption.
Qed.

(** X3.  For a table that gets a section the column list is never empty:
    the insert-statement query always concatenates at least one column
    expression. *)
Theorem included_has_columns (table : string) :
  included table = true ->
  exists col rest,
    columns_of table = col :: rest
    /\ statements_query table
       = insert_query table (column_expr col :: map column_expr rest).
Proof.
  intros Hin. apply andb_true_iff in Hin as [_ Hc].
  apply usable_lines_nonempty in Hc. fold (columns_of table) in Hc.
  unfold statements_query.
  destruct (columns_of table) as [|col rest]; [congruence|].
  exists col, rest. split; [reflexivity|].
  now rewrite build_column_list_acc.
Qed.

(** X4.  A run changes no file but the output file.  The output file is
    replaced by the dump text, whatever it held, when the catalog query
    gave a usable answer, and is left as it was otherwise. *)
Theorem files_after_run (w : World) (name : string) :
  files (snd (main w)) name
  = if String.eqb name output_file && Py.truthy (query_result tables_query)
    then Some dump_text
    else files w name.
Proof.
  destruct (Py.truthy (query_result tables_query)) eqn:Ht.
  - rewrite (main_writes w Ht). cbn [snd files].
    now destruct (String.eqb name output_file).
  - rewrite (main_aborts w Ht). cbn [snd files]. now rewrite andb_false_r.
Qed.

Lemma table_commands_shaped (table : string) :
  Forall psql_shaped (table_commands table)
  /\ List.length (table_commands table) <= 3.
Proof.
  unfold table_commands.
  destruct (String.eqb table excluded_table); [split; [constructor | cbn; lia]|].
  destruct (negb (Py.truthy (query_result (columns_query table))));
    (split; [repeat constructor; eexists; reflexivity | cbn; lia]).
Qed.

(** X5.  Every process a run launches is [psql] with four arguments: the
    value of DATABASE_URL (the empty string when the variable is not
    set), [-t], [-c] and one query.  A run launches at least one process
    and at most one plus three for each table listed. *)
Theorem run_launches_psql_only (w : World) :
  exists cmds,
    launched (snd (main w)) = launched w ++ cmds
    /\ Forall psql_shaped cmds
    /\ 1 <= List.length cmds <= 1 + 3 * List.length catalog_tables.
Proof.
  assert (Hall : forall l,
            Forall psql_shaped (flat_map table_commands l)
            /\ List.length (flat_map table_commands l) <= 3 * List.length l).
  { induction l as [|t l [IH1 IH2]]; [split; [constructor | cbn; lia]|].
    cbn [flat_map]. destruct (table_commands_shaped t) as [H1 H2]. split.
    - apply Forall_app. now split.
    - rewrite length_app. cbn [List.length]. lia. }
  assert (Hcat : psql_shaped (psql_cmd tables_query)) by (eexists; reflexivity).
  destruct (Py.truthy (query_result tables_query)) eqn:Ht.
  - rewrite (main_writes w Ht). cbn [snd launched].
    destruct (Hall catalog_tables) as [H1 H2].
    eexists. split; [reflexivity|]. split; [now constructor|].
    cbn [List.length]. lia.
  - rewrite (main_aborts w Ht). cbn [snd launched].
    eexists. split; [reflexivity|]. split; [now repeat constructor|].
    cbn [List.length]. lia.
Qed.

(** X7.  The loop only appends: the lines that were in [dump_content] stay
    in front, unchanged, and what is appended depends neither on them nor
    on the world; the loop writes no file. *)
Theorem loop_appends (tables : list string) :
  exists lines,
    forall dump_content w,
      fst (process_tables tables dump_content w) = dump_content ++ lines
      /\ files (snd (process_tables tables dump_content w)) = files w
      /\ firstn (List.length (launched w))
                (launched (snd (process_tables tables dump_content w)))
         = launched w
      /\ firstn (List.length (printed w))
                (printed (snd (process_tables tables dump_content w)))
         = printed w.
Proof.
  exists (flat_map table_lines tables). intros d w.
  rewrite process_tables_spec. cbn [fst snd files launched printed].
  repeat split.
  - rewrite firstn_app, Nat.sub_diag, firstn_all. cbn [firstn]. apply app_nil_r.
  - rewrite firstn_app, Nat.sub_diag, firstn_all. cbn [firstn]. apply app_nil_r.
Qed.

End MoreScriptFacts.

(** ** The lines of the file *)

Section FileLines.

Context {sys : System}.

Lemma statements_clean (table : string) :
  Forall clean (statements_of table).
Proof.
  rewrite statements_of_lines. apply Forall_forall.
  intros x. apply stripped_lines_clean.
Qed.

Lemma banner_line_no_newline (table row_count : string) :
  has_newline table = false -> has_newline row_count = false ->
  has_newline (banner_line table row_count) = false.
Proof.
  intros Ht Hc. unfold banner_line.
  rewrite !has_newline_app, upper_no_newline, Ht, Hc. reflexivity.
Qed.

(** X8.  A section is made of lines that are not empty, closed by one
    empty line: the two rule lines, the banner between them, then the
    statement lines, each of them on one line and without white space at
    either end.  An empty line inside the table part of the dump
    therefore always ends a section. *)
Theorem section_shape (table : string) (dump_content : list string) (w : World) :
  included table = true ->
  exists statements,
    fst (process_table table dump_content w)
    = dump_content
        ++ ([rule; banner_line table (row_count_of table); rule] ++ statements)
        ++ [EmptyString]
    /\ Forall clean statements
    /\ Forall (fun l => l <> EmptyString)
              ([rule; banner_line table (row_count_of table); rule] ++ statements).
Proof.
  intros Hin. exists (statements_of table).
  rewrite (process_table_included _ _ w Hin).
  split; [now rewrite <- !app_assoc|].
  split; [apply statements_clean|].
  apply Forall_app. split.
  - repeat constructor; discriminate.
  - eapply Forall_impl; [|apply statements_clean]. intros l Hl. apply Hl.
Qed.

(** X9.  When the row counts shown are on one line, the file read back
    and split at its line feeds is exactly the list of lines [main]
    built: the header, the lines of each table in turn, the footer. *)
Theorem file_lines_round_trip (w : World) :
  answered tables_query ->
  (forall t, In t catalog_tables -> included t = true ->
     has_newline (row_count_of t) = false) ->
  exists content,
    files (snd (main w)) output_file = Some content
    /\ Py.split_lines content
       = header ++ flat_map table_lines catalog_tables ++ footer.
Proof.
  intros Hcat Hcount. apply answered_truthy in Hcat.
  exists dump_text. split; [apply (written_file w Hcat)|].
  unfold dump_text. apply split_lines_join; [discriminate|].
  apply Forall_app. split; [repeat constructor|].
  apply Forall_app. split; [|repeat constructor].
  apply Forall_flat_map, Forall_forall. intros t Ht.
  unfold table_lines. destruct (included t) eqn:Hin; [|constructor].
  assert (Hname : has_newline t = false).
  { unfold catalog_tables in Ht. apply stripped_lines_clean in Ht.
    now destruct Ht as (_ & _ & _ & Ht). }
  unfold section_of. repeat constructor.
  - apply banner_line_no_newline; [exact Hname | now apply Hcount].
  - apply Forall_app. split; [|repeat constructor].
    eapply Forall_impl; [|apply statements_clean].
    intros l Hl. now destruct Hl as (_ & _ & _ & Hl).
Qed.

(** X10.  The log announces exactly the tables other than [sessions], in
    the order of the catalog answer, whether or not their queries
    succeed; a run that aborts announces none. *)
Theorem progress_log (w : World) :
  exists lines,
    printed (snd (main w)) = printed w ++ lines
    /\ progress_lines lines
       = map (fun t => ("Processing table: " ++ t)%string) kept_tables.
Proof.
  assert (Hrep : forall q, progress_lines (query_report q) = []).
  { intros q. unfold query_report.
    now destruct (subprocess_run (psql_cmd q)). }
  assert (Hone : forall t,
            progress_lines (table_prints t)
            = if negb (String.eqb t excluded_table)
              then [("Processing table: " ++ t)%string] else []).
  { intros t. unfold table_prints, progress_lines.
    destruct (String.eqb t excluded_table); [reflexivity|].
    cbn [negb]. rewrite !filter_app. fold (progress_lines (query_report (columns_query t))).
    rewrite Hrep. cbn [filter app].
    rewrite (prefix_app "Processing table: " t).
    destruct (negb (Py.truthy (query_result (columns_query t)))); [reflexivity|].
    rewrite !filter_app.
    fold (progress_lines (query_report (count_query t))).
    rewrite Hrep. cbn [app filter].
    change (prefix "Processing table: "
              ("Generating INSERT statements for " ++ t ++ "...")) with false.
    fold (progress_lines (query_report (statements_query t))).
    now rewrite Hrep. }
  assert (Hall : forall l,
            progress_lines (flat_map table_prints l)
            = map (fun t => ("Processing table: " ++ t)%string)
                  (filter (fun t => negb (String.eqb t excluded_table)) l)).
  { induction l as [|t l IH]; [reflexivity|].
    cbn [flat_map filter]. unfold progress_lines in *. rewrite filter_app, IH.
    fold (progress_lines (table_prints t)). rewrite Hone.
    now destruct (negb (String.eqb t excluded_table)). }
  destruct (Py.truthy (query_result tables_query)) eqn:Ht.
  - rewrite (main_writes w Ht). cbn [snd printed].
    eexists. split; [reflexivity|].
    unfold progress_lines in *. rewrite !filter_app.
    fold (progress_lines (query_report tables_query)). rewrite Hrep.
    rewrite Hall. cbn [app filter]. now rewrite app_nil_r.
  - rewrite (main_aborts w Ht). cbn [snd printed].
    eexists. split; [reflexivity|].
    unfold progress_lines in *. rewrite filter_app.
    fold (progress_lines (query_report tables_query)). rewrite Hrep.
    unfold kept_tables, catalog_tables.
    destruct (query_result tables_query) as [[|c s]|]; try discriminate; reflexivity.
Qed.

End FileLines.

(** ** The query texts *)

(** X11.  The queries of different tables differ, for the columns query
    and for the row-count query; and the catalog query, a columns query, a
    row-count query and an insert-statement query are never the same
    text, whatever the table names and columns are. *)
Theorem queries_differ (t t' : string) (column_list : list string) :
  (columns_query t = columns_query t' -> t = t')
  /\ (count_query t = count_query t' -> t = t')
  /\ tables_query <> columns_query t
  /\ tables_query <> count_query t
  /\ tables_query <> insert_query t column_list
  /\ columns_query t <> count_query t'
  /\ columns_query t <> insert_query t' column_list
  /\ count_query t <> insert_query t' column_list.
Proof.
  repeat split.
  - intros H. unfold columns_query in H. cbn [Py.join Py.nl append] in H.
    injection H as H. now do 2 apply string_app_inv_tail in H.
  - intros H. unfold count_query in H. cbn [append] in H.
    injection H as H. now apply string_app_inv_tail in H.
  - intros H. apply (f_equal (String.get 5)) in H. discriminate H.
  - intros H. apply (f_equal starts_with_newline) in H. discriminate H.
  - intros H. apply (f_equal (String.get 12)) in H. discriminate H.
  - apply columns_query_not_count.
  - intros H. apply (f_equal (String.get 5)) in H. discriminate H.
  - intros H. symmetry in H. revert H. apply insert_query_not_count.
Qed.

(** ** Counts and failures inside a section *)

Section SectionEdges.

Context {sys : System}.

(** X12.  The count shown in a banner is never empty and has no white
    space at either end; it is "0" whenever the row-count query failed or
    printed white space only. *)
Theorem row_count_shown (table : string) :
  row_count_of table <> EmptyString
  /\ Py.lstrip (row_count_of table) = row_count_of table
  /\ Py.rstrip (row_count_of table) = row_count_of table
  /\ (unusable (subprocess_run (psql_cmd (count_query table))) ->
      row_count_of table = "0").
Proof.
  unfold row_count_of, query_result, unusable.
  destruct (subprocess_run (psql_cmd (count_query table))) as [out|e err];
    cbn [text Py.truthy]; [|repeat split; discriminate].
  rewrite strip_idem.
  destruct (Py.nonempty (Py.strip out)) eqn:Hn.
  - split; [now apply nonempty_true|].
    split; [apply lstrip_strip|]. split; [apply rstrip_strip|].
    intros Hb. apply strip_blank in Hb. rewrite Hb in Hn. discriminate.
  - repeat split; discriminate.
Qed.

(** X13.  When the insert-statement query of an included table fails, the
    table still gets its banner, followed directly by the empty line, the
    failure is reported in the log after the line that announces the
    query, and no file is touched: the run goes on. *)
Theorem failed_statements_query (table e stderr : string)
    (dump_content : list string) (w : World) :
  included table = true ->
  subprocess_run (psql_cmd (statements_query table)) = CalledProcessError e stderr ->
  fst (process_table table dump_content w)
  = dump_content ++ [rule; banner_line table (row_count_of table); rule; EmptyString]
  /\ files (snd (process_table table dump_content w)) = files w
  /\ exists earlier,
       printed (snd (process_table table dump_content w))
       = printed w ++ earlier
           ++ [ ("Generating INSERT statements for " ++ table ++ "...")%string;
                ("Error running query: " ++ e)%string;
                ("stderr: " ++ stderr)%string ].
Proof.
  intros Hin Hfail. pose proof Hin as Hin'.
  apply andb_true_iff in Hin' as [Hne Hc].
  rewrite process_table_spec. cbn [fst snd files printed].
  unfold table_lines, table_prints. rewrite Hin, Hc.
  apply negb_true_iff in Hne. rewrite Hne. cbn [negb].
  split; [|split; [reflexivity|]].
  - unfold section_of, statements_of, query_result. now rewrite Hfail.
  - unfold query_report at 3. rewrite Hfail.
    exists ([("Processing table: " ++ table)%string]
              ++ query_report (columns_query table)
              ++ query_report (count_query table)).
    now rewrite <- !app_assoc.
Qed.

End SectionEdges.

(** ** The further properties on concrete databases *)

Lemma returned_text_is_stripped_users :
  Py.strip "2" = "2".
Proof.
  exact (proj1 (proj2 (proj2
    (@returned_text_is_stripped Scenario.users_system (count_query "users") "2"
       Scenario.empty_world eq_refl)))).
Defined.

Lemma listed_names_clean_users : clean "sessions" /\ clean "name".
Proof.
  split.
  - apply (proj1 (@listed_names_clean Scenario.users_system "sessions" "name")).
    vm_compute. now left.
  - apply (proj2 (@listed_names_clean Scenario.users_system "users" "name")).
    vm_compute. right. now left.
Defined.

Lemma included_has_columns_users :
  exists col rest,
    @columns_of Scenario.users_system "users" = col :: rest
    /\ @statements_query Scenario.users_system "users"
       = insert_query "users" (column_expr col :: map column_expr rest).
Proof.
  exact (@included_has_columns Scenario.users_system "users" eq_refl).
Defined.

Lemma section_shape_users :
  exists statements,
    fst (@process_table Scenario.users_system "users" [] Scenario.empty_world)
    = ([rule; "-- USERS (2 records)"; rule] ++ statements) ++ [EmptyString]
    /\ Forall clean statements.
Proof.
  destruct (@section_shape Scenario.users_system "users" [] Scenario.empty_world eq_refl)
    as (statements & H1 & H2 & _).
  exists statements. split; [exact H1 | exact H2].
Defined.

Lemma file_lines_round_trip_users :
  exists content,
    files (snd (@main Scenario.users_system Scenario.empty_world)) output_file
    = Some content
    /\ Py.split_lines content
       = header
           ++ flat_map (@table_lines Scenario.users_system)
                       (@catalog_tables Scenario.users_system)
           ++ footer.
Proof.
  apply (@file_lines_round_trip Scenario.users_system Scenario.empty_world).
  - eexists. split; reflexivity.
  - intros t Hin _. vm_compute in Hin.
    destruct Hin as [<-|[<-|[]]]; reflexivity.
Defined.

Lemma failed_statements_query_locked :
  fst (@process_table MoreScenarios.locked_system "drafts" header Scenario.empty_world)
  = header ++ [rule; "-- DRAFTS (3 records)"; rule; EmptyString].
Proof.
  exact (proj1 (@failed_statements_query MoreScenarios.locked_system "drafts" _ _
                  header Scenario.empty_world eq_refl eq_refl)).
Defined.

(** The run on that database goes on to the next table. *)
Example locked_dump_lines :
  option_map Py.split_lines
    (files (snd (@main MoreScenarios.locked_system Scenario.empty_world)) output_file)
  = Some (header
          ++ [rule; "-- DRAFTS (3 records)"; rule; EmptyString]
          ++ [rule; "-- USERS (1 records)"; rule;
              "INSERT INTO users VALUES ('1');"; EmptyString]
          ++ footer).
Proof. vm_compute. reflexivity. Qed.

(** ** Tables that are skipped *)

Lemma table_lines_included {sys : System} (tables : list string) :
  flat_map table_lines tables = flat_map section_of (filter included tables).
Proof.
  induction tables as [|t rest IH]; [reflexivity|].
  cbn [flat_map filter]. unfold table_lines at 1.
  destruct (included t); cbn [flat_map]; now rewrite IH.
Qed.

(** X14.  Whatever the per-table queries do, a run whose catalog query is
    answered writes the header, then the sections of exactly the tables
    that are not [sessions] and whose columns query gave a usable answer,
    in the order of the catalog answer, then the footer: a table whose
    columns query fails or prints nothing is left out without disturbing
    the tables around it. *)
Theorem sections_of_included_tables {sys : System} (w : World) :
  answered tables_query ->
  files (snd (main w)) output_file
  = Some (Py.join Py.nl
            (header ++ flat_map section_of (filter included catalog_tables) ++ footer))
  /\ forall t, In t (filter included catalog_tables) <->
               In t catalog_tables /\ t <> "sessions" /\ answered (columns_query t).
Proof.
  intros Hcat. apply answered_truthy in Hcat. split.
  - rewrite (written_file w Hcat). unfold dump_text.
    now rewrite table_lines_included.
  - intros t. rewrite filter_In, included_iff. tauto.
Qed.

Lemma sections_of_included_tables_drafts :
  files (snd (@main Scenario.drafts_system Scenario.empty_world)) output_file
  = Some (Py.join Py.nl
            (header ++ flat_map (@section_of Scenario.drafts_system) ["drafts"] ++ footer)).
Proof.
  refine (proj1 (@sections_of_included_tables Scenario.drafts_system
                   Scenario.empty_world _)).
  eexists. split; reflexivity.
Defined.

(** ** The statement of a row *)

Lemma fold_concat_null (values : list Sql.value) :
  In None values -> fold_right Sql.concat (Some EmptyString) values = None.
Proof.
  induction values as [|v rest IH]; intros H; [contradiction|].
  cbn [fold_right]. destruct H as [-> | H]; [reflexivity|].
  rewrite (IH H). now destruct v.
Qed.

Lemma in_separated {A : Type} (sep x : A) (l : list A) :
  In x l -> In x (Sql.separated sep l).
Proof.
  induction l as [|y l IH]; intros H; [contradiction|].
  destruct l as [|z l]; [exact H|].
  cbn [Sql.separated]. destruct H as [-> | H]; [now left|].
  right. right. now apply IH.
Qed.

Lemma join_cons (sep x : string) (l : list string) :
  l <> [] -> Py.join sep (x :: l) = (x ++ sep ++ Py.join sep l)%string.
Proof. destruct l; [congruence | reflexivity]. Qed.

Lemma join_separated (columns : list string) :
  Py.join " || ',' || " (map column_expr columns)
  = Py.join " || "
      (map Sql.render (Sql.separated (Sql.Literal ",") (map Sql.column_ast columns))).
Proof.
  induction columns as [|c rest IH]; [reflexivity|].
  destruct rest as [|d rest].
  - cbn [map Sql.separated Py.join]. now rewrite render_column_ast.
  - change (map column_expr (c :: d :: rest))
      with (column_expr c :: map column_expr (d :: rest)).
    rewrite join_cons by discriminate. rewrite IH.
    change (Sql.separated (Sql.Literal ",") (map Sql.column_ast (c :: d :: rest)))
      with (Sql.column_ast c :: Sql.Literal ","
              :: Sql.separated (Sql.Literal ",") (map Sql.column_ast (d :: rest))).
    cbn [map]. rewrite join_cons by discriminate.
    rewrite join_cons by (destruct rest; discriminate).
    rewrite render_column_ast. reflexivity.
Qed.

(** The query the builder sends asks for the select item of [Sql]. *)
Lemma insert_query_item (table : string) (columns : list string) :
  insert_query table (build_column_list columns [])
  = (Py.nl ++ "    SELECT " ++ Sql.render_item table columns ++ " as insert_statement"
       ++ Py.nl ++ "    FROM " ++ table ++ ";" ++ Py.nl ++ "    ")%string.
Proof.
  rewrite build_column_list_acc. cbn [app].
  unfold insert_query, Sql.render_item. rewrite join_separated.
  cbn [Py.join Sql.render]. rewrite !string_app_assoc. reflexivity.
Qed.

(** C4.  The code falls short of the claim.  For a column that is not
    special-cased, a null gives the unquoted text NULL.  For a
    special-cased column ([id], [created_at], [updated_at], or a name
    ending in [::text]) the script writes [quote_literal(col)] without the
    coalesce: on a row where that column is null the expression has no
    value, so the select item, a chain of [||], has no value either; the
    row is printed as an empty line, which the script drops.  The row is
    missing from the dump and no literal is generated for the column. *)
Theorem null_special_column_loses_row
    (quote_text : string -> string) (table col : string) (columns : list string)
    (row : string -> Sql.value) (dump_content : list string) :
  In col columns -> special_column col = true -> row col = None ->
  insert_query table (build_column_list columns [])
  = (Py.nl ++ "    SELECT " ++ Sql.render_item table columns ++ " as insert_statement"
       ++ Py.nl ++ "    FROM " ++ table ++ ";" ++ Py.nl ++ "    ")%string
  /\ column_expr col = ("quote_literal(" ++ col ++ ")")%string
  /\ Sql.render (Sql.column_ast col) = column_expr col
  /\ Sql.eval quote_text row (Sql.column_ast col) = None
  /\ Sql.insert_statement quote_text table row columns = None
  /\ append_statements
       [Sql.shown (Sql.insert_statement quote_text table row columns)] dump_content
     = dump_content
  /\ (forall other, special_column other = false -> row other = None ->
        column_expr other = ("COALESCE(quote_literal(" ++ other ++ "::text), 'NULL')")%string
        /\ Sql.eval quote_text row (Sql.column_ast other) = Some "NULL").
Proof.
  intros Hin Hsp Hnull.
  assert (Hval : Sql.eval quote_text row (Sql.column_ast col) = None).
  { unfold Sql.column_ast. rewrite Hsp. cbn [Sql.eval]. now rewrite Hnull. }
  assert (Hrow : Sql.insert_statement quote_text table row columns = None).
  { unfold Sql.insert_statement. apply fold_concat_null.
    rewrite <- Hval. apply in_map. unfold Sql.item_operands.
    right. apply in_or_app. left. apply in_separated. now apply in_map. }
  split; [apply insert_query_item|].
  split; [unfold column_expr; now rewrite Hsp|].
  split; [apply render_column_ast|].
  split; [exact Hval|]. split; [exact Hrow|].
  split; [now rewrite Hrow|].
  intros other Ho Hn. unfold column_expr, Sql.column_ast. rewrite Ho.
  cbn [Sql.eval]. now rewrite Hn.
Qed.

Lemma null_special_column_loses_row_bob :
  Sql.insert_statement Scenario.quote_text "users" MoreScenarios.bob_row
                       MoreScenarios.users_columns = None
  /\ Sql.insert_statement Scenario.quote_text "users" MoreScenarios.ann_row
                          MoreScenarios.users_columns
     = Some "INSERT INTO users VALUES ('1','ann','2025-08-01 10:00:00');".
Proof.
  split; [|reflexivity].
  refine (proj1 (proj2 (proj2 (proj2 (proj2
    (@null_special_column_loses_row Scenario.quote_text "users" "updated_at"
       MoreScenarios.users_columns MoreScenarios.bob_row [] _ eq_refl eq_refl)))))).
  right. right. now left.
Defined.

(** The run on that table: the banner counts two records, the dump has
    the statement of one. *)
Example users_rows_dump_lines :
  option_map Py.split_lines
    (files (snd (@main MoreScenarios.users_rows_system Scenario.empty_world)) output_file)
  = Some (header
          ++ [ rule; "-- USERS (2 records)"; rule;
               "INSERT INTO users VALUES ('1','ann','2025-08-01 10:00:00');";
               EmptyString ]
          ++ footer).
Proof. vm_compute. reflexivity. Qed.

(** ** The excluded table *)










Section Excluded.

Context {sys : System}.



End Excluded.


